(** * SimSIMD: runtime capability detection and metric dispatch

    Embedding of [include/simsimd/simsimd.h]: the capability probe
    [simsimd_capabilities], the resolver [simsimd_find_metric_punned] and the
    convenience form [simsimd_metric_punned], followed by the properties of
    the dispatch engine.

    Conventions.  C enumerations are kept as the integers they denote, so that
    aliases of a metric kind are equal by definition and values outside an
    enumeration can still be passed, as in C.  Capability masks are integers
    combined with [Z.land] and [Z.lor].  A function pointer is the name of the
    function it points to, or [None] for the null pointer.  The two output
    parameters of the resolver are threaded as an explicit state. *)

From Stdlib Require Import ZArith List Bool Ascii.
Import ListNotations.
Local Open Scope Z_scope.

(** ** Enumerations *)

(** The value of a C character constant. *)
Definition char (c : ascii) : Z := Z.of_N (N_of_ascii c).

(** [simsimd_metric_kind_t] *)
Definition simsimd_metric_kind_t := Z.

Definition simsimd_metric_unknown_k : simsimd_metric_kind_t := 0.
Definition simsimd_metric_dot_k : simsimd_metric_kind_t := char "i".
Definition simsimd_metric_inner_k : simsimd_metric_kind_t := char "i".
Definition simsimd_metric_vdot_k : simsimd_metric_kind_t := char "v".
Definition simsimd_metric_cos_k : simsimd_metric_kind_t := char "c".
Definition simsimd_metric_cosine_k : simsimd_metric_kind_t := char "c".
Definition simsimd_metric_angular_k : simsimd_metric_kind_t := char "c".
Definition simsimd_metric_l2sq_k : simsimd_metric_kind_t := char "e".
Definition simsimd_metric_sqeuclidean_k : simsimd_metric_kind_t := char "e".
Definition simsimd_metric_hamming_k : simsimd_metric_kind_t := char "h".
Definition simsimd_metric_manhattan_k : simsimd_metric_kind_t := char "h".
Definition simsimd_metric_jaccard_k : simsimd_metric_kind_t := char "j".
Definition simsimd_metric_tanimoto_k : simsimd_metric_kind_t := char "j".
Definition simsimd_metric_kl_k : simsimd_metric_kind_t := char "k".
Definition simsimd_metric_kullback_leibler_k : simsimd_metric_kind_t := char "k".
Definition simsimd_metric_js_k : simsimd_metric_kind_t := char "s".
Definition simsimd_metric_jensen_shannon_k : simsimd_metric_kind_t := char "s".

(** [simsimd_capability_t] *)
Definition simsimd_capability_t := Z.

Definition simsimd_cap_serial_k : simsimd_capability_t := 1.
Definition simsimd_cap_any_k : simsimd_capability_t := 0x7FFFFFFF.
Definition simsimd_cap_neon_k : simsimd_capability_t := Z.shiftl 1 10.
Definition simsimd_cap_sve_k : simsimd_capability_t := Z.shiftl 1 11.
Definition simsimd_cap_sve2_k : simsimd_capability_t := Z.shiftl 1 12.
Definition simsimd_cap_haswell_k : simsimd_capability_t := Z.shiftl 1 20.
Definition simsimd_cap_skylake_k : simsimd_capability_t := Z.shiftl 1 21.
Definition simsimd_cap_ice_k : simsimd_capability_t := Z.shiftl 1 22.
Definition simsimd_cap_sapphire_k : simsimd_capability_t := Z.shiftl 1 23.

(** [simsimd_datatype_t]: the enumerators are numbered from zero in the order
    of their declaration. *)
Definition simsimd_datatype_t := Z.

Definition simsimd_datatype_unknown_k : simsimd_datatype_t := 0.
Definition simsimd_datatype_f64_k : simsimd_datatype_t := 1.
Definition simsimd_datatype_f32_k : simsimd_datatype_t := 2.
Definition simsimd_datatype_f16_k : simsimd_datatype_t := 3.
Definition simsimd_datatype_i8_k : simsimd_datatype_t := 4.
Definition simsimd_datatype_b8_k : simsimd_datatype_t := 5.
Definition simsimd_datatype_f64c_k : simsimd_datatype_t := 6.
Definition simsimd_datatype_f32c_k : simsimd_datatype_t := 7.
Definition simsimd_datatype_f16c_k : simsimd_datatype_t := 8.
Definition simsimd_datatype_i8c_k : simsimd_datatype_t := 9.

(** ** Kernels

    The kernels live in the leaf headers ([dot.h], [spatial.h], [binary.h],
    [probability.h]); the dispatcher only takes their addresses.  A kernel is
    identified by its symbol [simsimd_<metric>_<type>_<backend>]. *)

Inductive metric_name := dot | vdot | cos | l2sq | hamming | jaccard | js | kl.
Inductive type_name := f64 | f32 | f16 | i8 | b8 | f64c | f32c | f16c.
Inductive backend_name := serial | neon | sve | haswell | skylake | ice | sapphire.

Record kernel := Kernel {
  kernel_metric : metric_name;
  kernel_type : type_name;
  kernel_backend : backend_name
}.

(** [simsimd_metric_punned_t]: a type-punned function pointer; [None] is the
    null pointer. *)
Definition simsimd_metric_punned_t := option kernel.

Definition null : simsimd_metric_punned_t := None.

Definition simsimd_dot_f64_skylake : kernel := Kernel dot f64 skylake.
Definition simsimd_cos_f64_skylake : kernel := Kernel cos f64 skylake.
Definition simsimd_l2sq_f64_skylake : kernel := Kernel l2sq f64 skylake.
Definition simsimd_dot_f64_serial : kernel := Kernel dot f64 serial.
Definition simsimd_cos_f64_serial : kernel := Kernel cos f64 serial.
Definition simsimd_l2sq_f64_serial : kernel := Kernel l2sq f64 serial.
Definition simsimd_js_f64_serial : kernel := Kernel js f64 serial.
Definition simsimd_kl_f64_serial : kernel := Kernel kl f64 serial.
Definition simsimd_dot_f32_neon : kernel := Kernel dot f32 neon.
Definition simsimd_cos_f32_neon : kernel := Kernel cos f32 neon.
Definition simsimd_l2sq_f32_neon : kernel := Kernel l2sq f32 neon.
Definition simsimd_js_f32_neon : kernel := Kernel js f32 neon.
Definition simsimd_kl_f32_neon : kernel := Kernel kl f32 neon.
Definition simsimd_dot_f32_skylake : kernel := Kernel dot f32 skylake.
Definition simsimd_cos_f32_skylake : kernel := Kernel cos f32 skylake.
Definition simsimd_l2sq_f32_skylake : kernel := Kernel l2sq f32 skylake.
Definition simsimd_js_f32_skylake : kernel := Kernel js f32 skylake.
Definition simsimd_kl_f32_skylake : kernel := Kernel kl f32 skylake.
Definition simsimd_dot_f32_serial : kernel := Kernel dot f32 serial.
Definition simsimd_cos_f32_serial : kernel := Kernel cos f32 serial.
Definition simsimd_l2sq_f32_serial : kernel := Kernel l2sq f32 serial.
Definition simsimd_js_f32_serial : kernel := Kernel js f32 serial.
Definition simsimd_kl_f32_serial : kernel := Kernel kl f32 serial.
Definition simsimd_dot_f16_sve : kernel := Kernel dot f16 sve.
Definition simsimd_cos_f16_sve : kernel := Kernel cos f16 sve.
Definition simsimd_l2sq_f16_sve : kernel := Kernel l2sq f16 sve.
Definition simsimd_dot_f16_neon : kernel := Kernel dot f16 neon.
Definition simsimd_cos_f16_neon : kernel := Kernel cos f16 neon.
Definition simsimd_l2sq_f16_neon : kernel := Kernel l2sq f16 neon.
Definition simsimd_js_f16_neon : kernel := Kernel js f16 neon.
Definition simsimd_kl_f16_neon : kernel := Kernel kl f16 neon.
Definition simsimd_dot_f16_sapphire : kernel := Kernel dot f16 sapphire.
Definition simsimd_cos_f16_sapphire : kernel := Kernel cos f16 sapphire.
Definition simsimd_l2sq_f16_sapphire : kernel := Kernel l2sq f16 sapphire.
Definition simsimd_js_f16_sapphire : kernel := Kernel js f16 sapphire.
Definition simsimd_kl_f16_sapphire : kernel := Kernel kl f16 sapphire.
Definition simsimd_dot_f16_haswell : kernel := Kernel dot f16 haswell.
Definition simsimd_cos_f16_haswell : kernel := Kernel cos f16 haswell.
Definition simsimd_l2sq_f16_haswell : kernel := Kernel l2sq f16 haswell.
Definition simsimd_js_f16_haswell : kernel := Kernel js f16 haswell.
Definition simsimd_kl_f16_haswell : kernel := Kernel kl f16 haswell.
Definition simsimd_dot_f16_serial : kernel := Kernel dot f16 serial.
Definition simsimd_cos_f16_serial : kernel := Kernel cos f16 serial.
Definition simsimd_l2sq_f16_serial : kernel := Kernel l2sq f16 serial.
Definition simsimd_js_f16_serial : kernel := Kernel js f16 serial.
Definition simsimd_kl_f16_serial : kernel := Kernel kl f16 serial.
Definition simsimd_cos_i8_neon : kernel := Kernel cos i8 neon.
Definition simsimd_l2sq_i8_neon : kernel := Kernel l2sq i8 neon.
Definition simsimd_cos_i8_ice : kernel := Kernel cos i8 ice.
Definition simsimd_l2sq_i8_ice : kernel := Kernel l2sq i8 ice.
Definition simsimd_cos_i8_haswell : kernel := Kernel cos i8 haswell.
Definition simsimd_l2sq_i8_haswell : kernel := Kernel l2sq i8 haswell.
Definition simsimd_cos_i8_serial : kernel := Kernel cos i8 serial.
Definition simsimd_l2sq_i8_serial : kernel := Kernel l2sq i8 serial.
Definition simsimd_hamming_b8_sve : kernel := Kernel hamming b8 sve.
Definition simsimd_jaccard_b8_sve : kernel := Kernel jaccard b8 sve.
Definition simsimd_hamming_b8_neon : kernel := Kernel hamming b8 neon.
Definition simsimd_jaccard_b8_neon : kernel := Kernel jaccard b8 neon.
Definition simsimd_hamming_b8_ice : kernel := Kernel hamming b8 ice.
Definition simsimd_jaccard_b8_ice : kernel := Kernel jaccard b8 ice.
Definition simsimd_hamming_b8_haswell : kernel := Kernel hamming b8 haswell.
Definition simsimd_jaccard_b8_haswell : kernel := Kernel jaccard b8 haswell.
Definition simsimd_hamming_b8_serial : kernel := Kernel hamming b8 serial.
Definition simsimd_jaccard_b8_serial : kernel := Kernel jaccard b8 serial.
Definition simsimd_dot_f32c_sve : kernel := Kernel dot f32c sve.
Definition simsimd_vdot_f32c_sve : kernel := Kernel vdot f32c sve.
Definition simsimd_dot_f32c_neon : kernel := Kernel dot f32c neon.
Definition simsimd_vdot_f32c_neon : kernel := Kernel vdot f32c neon.
Definition simsimd_dot_f32c_haswell : kernel := Kernel dot f32c haswell.
Definition simsimd_vdot_f32c_haswell : kernel := Kernel vdot f32c haswell.
Definition simsimd_dot_f32c_skylake : kernel := Kernel dot f32c skylake.
Definition simsimd_vdot_f32c_skylake : kernel := Kernel vdot f32c skylake.
Definition simsimd_dot_f32c_serial : kernel := Kernel dot f32c serial.
Definition simsimd_vdot_f32c_serial : kernel := Kernel vdot f32c serial.
Definition simsimd_dot_f64c_sve : kernel := Kernel dot f64c sve.
Definition simsimd_vdot_f64c_sve : kernel := Kernel vdot f64c sve.
Definition simsimd_dot_f64c_skylake : kernel := Kernel dot f64c skylake.
Definition simsimd_vdot_f64c_skylake : kernel := Kernel vdot f64c skylake.
Definition simsimd_dot_f64c_serial : kernel := Kernel dot f64c serial.
Definition simsimd_vdot_f64c_serial : kernel := Kernel vdot f64c serial.
Definition simsimd_dot_f16c_sve : kernel := Kernel dot f16c sve.
Definition simsimd_vdot_f16c_sve : kernel := Kernel vdot f16c sve.
Definition simsimd_dot_f16c_neon : kernel := Kernel dot f16c neon.
Definition simsimd_vdot_f16c_neon : kernel := Kernel vdot f16c neon.
Definition simsimd_dot_f16c_haswell : kernel := Kernel dot f16c haswell.
Definition simsimd_vdot_f16c_haswell : kernel := Kernel vdot f16c haswell.
Definition simsimd_dot_f16c_sapphire : kernel := Kernel dot f16c sapphire.
Definition simsimd_vdot_f16c_sapphire : kernel := Kernel vdot f16c sapphire.
Definition simsimd_dot_f16c_serial : kernel := Kernel dot f16c serial.
Definition simsimd_vdot_f16c_serial : kernel := Kernel vdot f16c serial.

(** ** Build configuration and host

    The [SIMSIMD_TARGET_*] macros come from the build (they are defined
    outside this header), and so do [__linux__] and the [HWCAP] constants of
    the system headers.  They are the parameters of the development. *)

Record targets := {
  SIMSIMD_TARGET_X86 : bool;
  SIMSIMD_TARGET_ARM : bool;
  SIMSIMD_TARGET_NEON : bool;
  SIMSIMD_TARGET_SVE : bool;
  SIMSIMD_TARGET_HASWELL : bool;
  SIMSIMD_TARGET_SKYLAKE : bool;
  SIMSIMD_TARGET_ICE : bool;
  SIMSIMD_TARGET_SAPPHIRE : bool;
  __linux__ : bool;
  HWCAP_SVE : Z;
  HWCAP2_SVE2 : Z
}.

(** The four registers filled by one [cpuid] call. *)
Record four_registers_t := {
  eax : Z;
  ebx : Z;
  ecx : Z;
  edx : Z
}.

(** What the machine answers to the probe: [cpuid] leaves 1 and 7, and the
    auxiliary vector entries [AT_HWCAP] and [AT_HWCAP2]. *)
Record host := {
  cpuid_1 : four_registers_t;
  cpuid_7 : four_registers_t;
  getauxval_AT_HWCAP : Z;
  getauxval_AT_HWCAP2 : Z
}.

(** C truth values: [x != 0] and [a && b] as the integers 0 and 1. *)
Definition ne0 (x : Z) : Z := Z.b2z (negb (x =? 0)).
Definition land_c (a b : Z) : Z := Z.b2z (negb (a =? 0) && negb (b =? 0)).

Infix "&&&" := land_c (at level 40, left associativity).

(** ** [simsimd_capabilities] *)

Definition capabilities_x86 (h : host) : simsimd_capability_t :=
  let info1 := cpuid_1 h in
  let info7 := cpuid_7 h in
  let supports_avx2 := ne0 (Z.land (ebx info7) 0x00000020) in
  let supports_f16c := ne0 (Z.land (ecx info1) 0x20000000) in
  let supports_fma := ne0 (Z.land (ecx info1) 0x00001000) in
  let supports_avx512f := ne0 (Z.land (ebx info7) 0x00010000) in
  let supports_avx512ifma := ne0 (Z.land (ebx info7) 0x00200000) in
  let supports_avx512fp16 := ne0 (Z.land (edx info7) 0x00800000) in
  let supports_avx512vpopcntdq := ne0 (Z.land (ecx info1) 0x00004000) in
  let supports_avx512vbmi2 := ne0 (Z.land (ecx info1) 0x00000040) in
  let supports_avx512vnni := ne0 (Z.land (ecx info1) 0x00000800) in
  let supports_avx512bitalg := ne0 (Z.land (ecx info1) 0x00001000) in
  let supports_haswell := supports_avx2 &&& supports_f16c &&& supports_fma in
  let supports_skylake := supports_avx512f in
  let supports_ice :=
    supports_avx512vnni &&& supports_avx512ifma &&& supports_avx512bitalg
    &&& supports_avx512vbmi2 &&& supports_avx512vpopcntdq in
  let supports_sapphire := supports_avx512fp16 in
  Z.lor (Z.lor (Z.lor (Z.lor
    (simsimd_cap_haswell_k * supports_haswell)
    (simsimd_cap_skylake_k * supports_skylake))
    (simsimd_cap_ice_k * supports_ice))
    (simsimd_cap_sapphire_k * supports_sapphire))
    simsimd_cap_serial_k.

Definition capabilities_arm (T : targets) (h : host) : simsimd_capability_t :=
  let supports_neon := 1 in
  let supports_sve := 0 in
  let supports_sve2 := 0 in
  let '(supports_sve, supports_sve2) :=
    if __linux__ T then
      let hwcap := getauxval_AT_HWCAP h in
      let hwcap2 := getauxval_AT_HWCAP2 h in
      (ne0 (Z.land hwcap (HWCAP_SVE T)), ne0 (Z.land hwcap2 (HWCAP2_SVE2 T)))
    else (supports_sve, supports_sve2) in
  Z.lor (Z.lor (Z.lor
    (simsimd_cap_neon_k * supports_neon)
    (simsimd_cap_sve_k * supports_sve))
    (simsimd_cap_sve2_k * supports_sve2))
    simsimd_cap_serial_k.

Definition simsimd_capabilities (T : targets) (h : host) : simsimd_capability_t :=
  if SIMSIMD_TARGET_X86 T then capabilities_x86 h
  else if SIMSIMD_TARGET_ARM T then capabilities_arm T h
  else simsimd_cap_serial_k.

(** ** [simsimd_find_metric_punned] *)

(** The two output parameters, [*metric_output] and [*capability_output]. *)
Record outputs := {
  metric_output : simsimd_metric_punned_t;
  capability_output : simsimd_capability_t
}.

(** One tier of one datatype:

      #if <compiled>
          if (viable & <tier>)
              switch (kind) { case k: *m = &f, *c = <tier>; return; ... default: break; }
      #endif

    The baseline tier has no guard: it is always compiled. *)
Record tier_block := {
  compiled : bool;
  tier : simsimd_capability_t;
  cases : list (simsimd_metric_kind_t * kernel)
}.

(** A function either has returned or is still running. *)
Inductive flow :=
| Returned (o : outputs)
| Running (o : outputs).

Definition finish (f : flow) : outputs :=
  match f with Returned o => o | Running o => o end.

(** [switch (kind)]: the case whose label equals [kind], or [default]. *)
Fixpoint switch_kind (kind : simsimd_metric_kind_t)
    (cs : list (simsimd_metric_kind_t * kernel)) : option kernel :=
  match cs with
  | [] => None
  | (k, f) :: cs' => if kind =? k then Some f else switch_kind kind cs'
  end.

Definition run_block (viable : simsimd_capability_t) (kind : simsimd_metric_kind_t)
    (b : tier_block) (o : outputs) : flow :=
  if compiled b && negb (Z.land viable (tier b) =? 0) then
    match switch_kind kind (cases b) with
    | Some f => Returned {| metric_output := Some f; capability_output := tier b |}
    | None => Running o
    end
  else Running o.

Fixpoint run_blocks (viable : simsimd_capability_t) (kind : simsimd_metric_kind_t)
    (bs : list tier_block) (o : outputs) : flow :=
  match bs with
  | [] => Running o
  | b :: bs' =>
      match run_block viable kind b o with
      | Returned o' => Returned o'
      | Running o' => run_blocks viable kind bs' o'
      end
  end.

(** One [case] of [switch (datatype)]: its label, the tiers written under it,
    and whether it ends in [break]. *)
Record case_arm := {
  label : simsimd_datatype_t;
  body : list tier_block;
  breaks : bool
}.

(** Statements executed from the head of [arms] on: a [case] without [break]
    falls through into the next one. *)
Fixpoint fall_through (arms : list case_arm) : list tier_block :=
  match arms with
  | [] => []
  | a :: rest => body a ++ (if breaks a then [] else fall_through rest)
  end.

(** [switch (datatype)] has no [default]: a value without a label executes
    nothing. *)
Fixpoint switch_datatype (datatype : simsimd_datatype_t) (arms : list case_arm)
    : list tier_block :=
  match arms with
  | [] => []
  | a :: rest =>
      if datatype =? label a then fall_through arms
      else switch_datatype datatype rest
  end.

Section Dispatch.

Variable T : targets.

Definition case_f64 : list tier_block :=
  [ {| compiled := SIMSIMD_TARGET_SKYLAKE T; tier := simsimd_cap_skylake_k; cases :=
      [ (simsimd_metric_dot_k, simsimd_dot_f64_skylake);
        (simsimd_metric_cos_k, simsimd_cos_f64_skylake);
        (simsimd_metric_l2sq_k, simsimd_l2sq_f64_skylake) ] |};
    {| compiled := true; tier := simsimd_cap_serial_k; cases :=
      [ (simsimd_metric_dot_k, simsimd_dot_f64_serial);
        (simsimd_metric_cos_k, simsimd_cos_f64_serial);
        (simsimd_metric_l2sq_k, simsimd_l2sq_f64_serial);
        (simsimd_metric_js_k, simsimd_js_f64_serial);
        (simsimd_metric_kl_k, simsimd_kl_f64_serial) ] |} ].

Definition case_f32 : list tier_block :=
  [ {| compiled := SIMSIMD_TARGET_NEON T; tier := simsimd_cap_neon_k; cases :=
      [ (simsimd_metric_dot_k, simsimd_dot_f32_neon);
        (simsimd_metric_cos_k, simsimd_cos_f32_neon);
        (simsimd_metric_l2sq_k, simsimd_l2sq_f32_neon);
        (simsimd_metric_js_k, simsimd_js_f32_neon);
        (simsimd_metric_kl_k, simsimd_kl_f32_neon) ] |};
    {| compiled := SIMSIMD_TARGET_SKYLAKE T; tier := simsimd_cap_skylake_k; cases :=
      [ (simsimd_metric_dot_k, simsimd_dot_f32_skylake);
        (simsimd_metric_cos_k, simsimd_cos_f32_skylake);
        (simsimd_metric_l2sq_k, simsimd_l2sq_f32_skylake);
        (simsimd_metric_js_k, simsimd_js_f32_skylake);
        (simsimd_metric_kl_k, simsimd_kl_f32_skylake) ] |};
    {| compiled := true; tier := simsimd_cap_serial_k; cases :=
      [ (simsimd_metric_dot_k, simsimd_dot_f32_serial);
        (simsimd_metric_cos_k, simsimd_cos_f32_serial);
        (simsimd_metric_l2sq_k, simsimd_l2sq_f32_serial);
        (simsimd_metric_js_k, simsimd_js_f32_serial);
        (simsimd_metric_kl_k, simsimd_kl_f32_serial) ] |} ].

Definition case_f16 : list tier_block :=
  [ {| compiled := SIMSIMD_TARGET_SVE T; tier := simsimd_cap_sve_k; cases :=
      [ (simsimd_metric_dot_k, simsimd_dot_f16_sve);
        (simsimd_metric_cos_k, simsimd_cos_f16_sve);
        (simsimd_metric_l2sq_k, simsimd_l2sq_f16_sve) ] |};
    {| compiled := SIMSIMD_TARGET_NEON T; tier := simsimd_cap_neon_k; cases :=
      [ (simsimd_metric_dot_k, simsimd_dot_f16_neon);
        (simsimd_metric_cos_k, simsimd_cos_f16_neon);
        (simsimd_metric_l2sq_k, simsimd_l2sq_f16_neon);
        (simsimd_metric_js_k, simsimd_js_f16_neon);
        (simsimd_metric_kl_k, simsimd_kl_f16_neon) ] |};
    {| compiled := SIMSIMD_TARGET_SAPPHIRE T; tier := simsimd_cap_sapphire_k; cases :=
      [ (simsimd_metric_dot_k, simsimd_dot_f16_sapphire);
        (simsimd_metric_cos_k, simsimd_cos_f16_sapphire);
        (simsimd_metric_l2sq_k, simsimd_l2sq_f16_sapphire);
        (simsimd_metric_js_k, simsimd_js_f16_sapphire);
        (simsimd_metric_kl_k, simsimd_kl_f16_sapphire) ] |};
    {| compiled := SIMSIMD_TARGET_HASWELL T; tier := simsimd_cap_haswell_k; cases :=
      [ (simsimd_metric_dot_k, simsimd_dot_f16_haswell);
        (simsimd_metric_cos_k, simsimd_cos_f16_haswell);
        (simsimd_metric_l2sq_k, simsimd_l2sq_f16_haswell);
        (simsimd_metric_js_k, simsimd_js_f16_haswell);
        (simsimd_metric_kl_k, simsimd_kl_f16_haswell) ] |};
    {| compiled := true; tier := simsimd_cap_serial_k; cases :=
      [ (simsimd_metric_dot_k, simsimd_dot_f16_serial);
        (simsimd_metric_cos_k, simsimd_cos_f16_serial);
        (simsimd_metric_l2sq_k, simsimd_l2sq_f16_serial);
        (simsimd_metric_js_k, simsimd_js_f16_serial);
        (simsimd_metric_kl_k, simsimd_kl_f16_serial) ] |} ].

Definition case_i8 : list tier_block :=
  [ {| compiled := SIMSIMD_TARGET_NEON T; tier := simsimd_cap_neon_k; cases :=
      [ (simsimd_metric_dot_k, simsimd_cos_i8_neon);
        (simsimd_metric_cos_k, simsimd_cos_i8_neon);
        (simsimd_metric_l2sq_k, simsimd_l2sq_i8_neon) ] |};
    {| compiled := SIMSIMD_TARGET_ICE T; tier := simsimd_cap_ice_k; cases :=
      [ (simsimd_metric_dot_k, simsimd_cos_i8_ice);
        (simsimd_metric_cos_k, simsimd_cos_i8_ice);
        (simsimd_metric_l2sq_k, simsimd_l2sq_i8_ice) ] |};
    {| compiled := SIMSIMD_TARGET_HASWELL T; tier := simsimd_cap_haswell_k; cases :=
      [ (simsimd_metric_dot_k, simsimd_cos_i8_haswell);
        (simsimd_metric_cos_k, simsimd_cos_i8_haswell);
        (simsimd_metric_l2sq_k, simsimd_l2sq_i8_haswell) ] |};
    {| compiled := true; tier := simsimd_cap_serial_k; cases :=
      [ (simsimd_metric_dot_k, simsimd_cos_i8_serial);
        (simsimd_metric_cos_k, simsimd_cos_i8_serial);
        (simsimd_metric_l2sq_k, simsimd_l2sq_i8_serial) ] |} ].

Definition case_b8 : list tier_block :=
  [ {| compiled := SIMSIMD_TARGET_SVE T; tier := simsimd_cap_sve_k; cases :=
      [ (simsimd_metric_hamming_k, simsimd_hamming_b8_sve);
        (simsimd_metric_jaccard_k, simsimd_jaccard_b8_sve) ] |};
    {| compiled := SIMSIMD_TARGET_NEON T; tier := simsimd_cap_neon_k; cases :=
      [ (simsimd_metric_hamming_k, simsimd_hamming_b8_neon);
        (simsimd_metric_jaccard_k, simsimd_jaccard_b8_neon) ] |};
    {| compiled := SIMSIMD_TARGET_ICE T; tier := simsimd_cap_ice_k; cases :=
      [ (simsimd_metric_hamming_k, simsimd_hamming_b8_ice);
        (simsimd_metric_jaccard_k, simsimd_jaccard_b8_ice) ] |};
    {| compiled := SIMSIMD_TARGET_HASWELL T; tier := simsimd_cap_haswell_k; cases :=
      [ (simsimd_metric_hamming_k, simsimd_hamming_b8_haswell);
        (simsimd_metric_jaccard_k, simsimd_jaccard_b8_haswell) ] |};
    {| compiled := true; tier := simsimd_cap_serial_k; cases :=
      [ (simsimd_metric_hamming_k, simsimd_hamming_b8_serial);
        (simsimd_metric_jaccard_k, simsimd_jaccard_b8_serial) ] |} ].

Definition case_f32c : list tier_block :=
  [ {| compiled := SIMSIMD_TARGET_SVE T; tier := simsimd_cap_sve_k; cases :=
      [ (simsimd_metric_dot_k, simsimd_dot_f32c_sve);
        (simsimd_metric_vdot_k, simsimd_vdot_f32c_sve) ] |};
    {| compiled := SIMSIMD_TARGET_NEON T; tier := simsimd_cap_neon_k; cases :=
      [ (simsimd_metric_dot_k, simsimd_dot_f32c_neon);
        (simsimd_metric_vdot_k, simsimd_vdot_f32c_neon) ] |};
    {| compiled := SIMSIMD_TARGET_HASWELL T; tier := simsimd_cap_haswell_k; cases :=
      [ (simsimd_metric_dot_k, simsimd_dot_f32c_haswell);
        (simsimd_metric_vdot_k, simsimd_vdot_f32c_haswell) ] |};
    {| compiled := SIMSIMD_TARGET_SKYLAKE T; tier := simsimd_cap_skylake_k; cases :=
      [ (simsimd_metric_dot_k, simsimd_dot_f32c_skylake);
        (simsimd_metric_vdot_k, simsimd_vdot_f32c_skylake) ] |};
    {| compiled := true; tier := simsimd_cap_serial_k; cases :=
      [ (simsimd_metric_dot_k, simsimd_dot_f32c_serial);
        (simsimd_metric_vdot_k, simsimd_vdot_f32c_serial) ] |} ].

Definition case_f64c : list tier_block :=
  [ {| compiled := SIMSIMD_TARGET_SVE T; tier := simsimd_cap_sve_k; cases :=
      [ (simsimd_metric_dot_k, simsimd_dot_f64c_sve);
        (simsimd_metric_vdot_k, simsimd_vdot_f64c_sve) ] |};
    {| compiled := SIMSIMD_TARGET_SKYLAKE T; tier := simsimd_cap_skylake_k; cases :=
      [ (simsimd_metric_dot_k, simsimd_dot_f64c_skylake);
        (simsimd_metric_vdot_k, simsimd_vdot_f64c_skylake) ] |};
    {| compiled := true; tier := simsimd_cap_serial_k; cases :=
      [ (simsimd_metric_dot_k, simsimd_dot_f64c_serial);
        (simsimd_metric_vdot_k, simsimd_vdot_f64c_serial) ] |} ].

Definition case_f16c : list tier_block :=
  [ {| compiled := SIMSIMD_TARGET_SVE T; tier := simsimd_cap_sve_k; cases :=
      [ (simsimd_metric_dot_k, simsimd_dot_f16c_sve);
        (simsimd_metric_vdot_k, simsimd_vdot_f16c_sve) ] |};
    {| compiled := SIMSIMD_TARGET_NEON T; tier := simsimd_cap_neon_k; cases :=
      [ (simsimd_metric_dot_k, simsimd_dot_f16c_neon);
        (simsimd_metric_vdot_k, simsimd_vdot_f16c_neon) ] |};
    {| compiled := SIMSIMD_TARGET_HASWELL T; tier := simsimd_cap_haswell_k; cases :=
      [ (simsimd_metric_dot_k, simsimd_dot_f16c_haswell);
        (simsimd_metric_vdot_k, simsimd_vdot_f16c_haswell) ] |};
    {| compiled := SIMSIMD_TARGET_SAPPHIRE T; tier := simsimd_cap_sapphire_k; cases :=
      [ (simsimd_metric_dot_k, simsimd_dot_f16c_sapphire);
        (simsimd_metric_vdot_k, simsimd_vdot_f16c_sapphire) ] |};
    {| compiled := true; tier := simsimd_cap_serial_k; cases :=
      [ (simsimd_metric_dot_k, simsimd_dot_f16c_serial);
        (simsimd_metric_vdot_k, simsimd_vdot_f16c_serial) ] |} ].
(** The cases of [switch (datatype)] in source order.  [case f32c] is the one
    that does not end in [break]. *)
Definition datatype_cases : list case_arm :=
  [ {| label := simsimd_datatype_unknown_k; body := []; breaks := true |};
    {| label := simsimd_datatype_f64_k; body := case_f64; breaks := true |};
    {| label := simsimd_datatype_f32_k; body := case_f32; breaks := true |};
    {| label := simsimd_datatype_f16_k; body := case_f16; breaks := true |};
    {| label := simsimd_datatype_i8_k; body := case_i8; breaks := true |};
    {| label := simsimd_datatype_b8_k; body := case_b8; breaks := true |};
    {| label := simsimd_datatype_f32c_k; body := case_f32c; breaks := false |};
    {| label := simsimd_datatype_f64c_k; body := case_f64c; breaks := true |};
    {| label := simsimd_datatype_f16c_k; body := case_f16c; breaks := true |} ].

(** The argument [out] is the content of the two output variables on entry. *)
Definition simsimd_find_metric_punned
    (kind : simsimd_metric_kind_t) (datatype : simsimd_datatype_t)
    (supported allowed : simsimd_capability_t) (out : outputs) : outputs :=
  let viable := Z.land supported allowed in
  (* *m = 0 *)
  let out := {| metric_output := null; capability_output := capability_output out |} in
  (* *c = 0 *)
  let out := {| metric_output := metric_output out; capability_output := 0 |} in
  finish (run_blocks viable kind (switch_datatype datatype datatype_cases) out).

(** [simsimd_metric_punned] *)
Definition simsimd_metric_punned (h : host)
    (kind : simsimd_metric_kind_t) (datatype : simsimd_datatype_t)
    (allowed : simsimd_capability_t) : simsimd_metric_punned_t :=
  let result := null in
  let c := simsimd_cap_serial_k in
  let supported := simsimd_capabilities T h in
  let out :=
    simsimd_find_metric_punned kind datatype supported allowed
      {| metric_output := result; capability_output := c |} in
  metric_output out.

End Dispatch.

(** ** The kernel catalog

    The catalog is what the resolver's cases register: one entry per
    [case k:] of a compiled tier, keyed by the datatype whose [case] it is
    written under. *)

Record kernel_entry := {
  entry_datatype : simsimd_datatype_t;
  entry_tier : simsimd_capability_t;
  entry_kind : simsimd_metric_kind_t;
  entry_point : kernel
}.

Definition block_entries (dt : simsimd_datatype_t) (b : tier_block)
    : list kernel_entry :=
  if compiled b then
    map (fun kf => {| entry_datatype := dt; entry_tier := tier b;
                      entry_kind := fst kf; entry_point := snd kf |})
        (cases b)
  else [].

Definition arm_entries (a : case_arm) : list kernel_entry :=
  flat_map (block_entries (label a)) (body a).

Definition catalog (T : targets) : list kernel_entry :=
  flat_map arm_entries (datatype_cases T).

(** [f] is an entry point registered under datatype [dt]. *)
Definition registered_under (T : targets) (dt : simsimd_datatype_t) (f : kernel)
    : Prop :=
  exists e, In e (catalog T) /\ entry_datatype e = dt /\ entry_point e = f.

(** Tier [t] registers the pair [(kind, dt)]. *)
Definition tier_registers (T : targets) (t : simsimd_capability_t)
    (kind : simsimd_metric_kind_t) (dt : simsimd_datatype_t) : Prop :=
  exists f, In {| entry_datatype := dt; entry_tier := t;
                  entry_kind := kind; entry_point := f |} (catalog T).

(** Some tier registers the pair [(kind, dt)]. *)
Definition registered_somewhere (T : targets)
    (kind : simsimd_metric_kind_t) (dt : simsimd_datatype_t) : Prop :=
  exists t, tier_registers T t kind dt.

(** The datatype a kernel's symbol names. *)
Definition type_code (t : type_name) : simsimd_datatype_t :=
  match t with
  | f64 => simsimd_datatype_f64_k
  | f32 => simsimd_datatype_f32_k
  | f16 => simsimd_datatype_f16_k
  | i8 => simsimd_datatype_i8_k
  | b8 => simsimd_datatype_b8_k
  | f64c => simsimd_datatype_f64c_k
  | f32c => simsimd_datatype_f32c_k
  | f16c => simsimd_datatype_f16c_k
  end.

(** ** Tier priority *)

(** The tiers written under the [case] of a datatype itself. *)
Fixpoint case_body (datatype : simsimd_datatype_t) (arms : list case_arm)
    : list tier_block :=
  match arms with
  | [] => []
  | a :: rest =>
      if datatype =? label a then body a else case_body datatype rest
  end.

(** The order in which the tiers of a datatype are examined: the compiled
    tiers of its [case], first to last. *)
Definition tier_order (T : targets) (dt : simsimd_datatype_t)
    : list simsimd_capability_t :=
  map tier (filter compiled (case_body dt (datatype_cases T))).

(** Index of the first occurrence of [c] in [order]; a value that does not
    occur (the zero that stands for no tier) comes after every tier. *)
Fixpoint position (c : simsimd_capability_t) (order : list simsimd_capability_t)
    : nat :=
  match order with
  | [] => O
  | t :: rest => if c =? t then O else S (position c rest)
  end.

Definition priority_rank (T : targets) (dt : simsimd_datatype_t)
    (c : simsimd_capability_t) : nat :=
  position c (tier_order T dt).

(** [a1] is a subset of [a2], as bitmasks. *)
Definition mask_subset (a1 a2 : simsimd_capability_t) : Prop :=
  Z.land a1 a2 = a1.

(** The bits of the advanced tiers. *)
Definition advanced_tiers : simsimd_capability_t :=
  Z.lor simsimd_cap_neon_k (Z.lor simsimd_cap_sve_k (Z.lor simsimd_cap_sve2_k
  (Z.lor simsimd_cap_haswell_k (Z.lor simsimd_cap_skylake_k
  (Z.lor simsimd_cap_ice_k simsimd_cap_sapphire_k))))).

(** A tier block fires: it is compiled, viable, and has a case for [kind]. *)
Definition fires (viable : simsimd_capability_t) (kind : simsimd_metric_kind_t)
    (b : tier_block) : bool :=
  compiled b && negb (Z.land viable (tier b) =? 0)
  && match switch_kind kind (cases b) with Some _ => true | None => false end.

(** The state after the two stores at the top of the resolver. *)
Definition cleared : outputs :=
  {| metric_output := null; capability_output := 0 |}.

(** Some compiled block of [bs1] tests the tier of [b2] and has every case of
    [b2]. *)
Definition covered_by (bs1 : list tier_block) (b2 : tier_block) : bool :=
  negb (compiled b2)
  || existsb (fun b1 =>
       compiled b1 && (tier b1 =? tier b2)
       && forallb (fun k => existsb (Z.eqb k) (map fst (cases b1)))
                  (map fst (cases b2))) bs1.

(** The tiers of a cascade are pairwise distinct and none is zero. *)
Fixpoint distinct_nonzero (order : list simsimd_capability_t) : bool :=
  match order with
  | [] => true
  | t :: rest =>
      negb (t =? 0) && negb (existsb (Z.eqb t) rest) && distinct_nonzero rest
  end.

(** Every case of every block of a cascade is also a case of a compiled
    baseline block of that cascade. *)
Definition baseline_complete (bs : list tier_block) : bool :=
  forallb (fun b =>
    existsb (fun b' =>
      compiled b' && (tier b' =? simsimd_cap_serial_k)
      && forallb (fun k => existsb (Z.eqb k) (map fst (cases b')))
                 (map fst (cases b))) bs) bs.

(** The symbol of an entry names the datatype the entry is keyed by. *)
Definition keyed_by_name (e : kernel_entry) : bool :=
  type_code (kernel_type (entry_point e)) =? entry_datatype e.

(** Example builds and hosts used in the examples below. *)
Definition build_portable : targets :=
  {| SIMSIMD_TARGET_X86 := false; SIMSIMD_TARGET_ARM := false;
     SIMSIMD_TARGET_NEON := false; SIMSIMD_TARGET_SVE := false;
     SIMSIMD_TARGET_HASWELL := false; SIMSIMD_TARGET_SKYLAKE := false;
     SIMSIMD_TARGET_ICE := false; SIMSIMD_TARGET_SAPPHIRE := false;
     __linux__ := true; HWCAP_SVE := Z.shiftl 1 22; HWCAP2_SVE2 := Z.shiftl 1 1 |}.

Definition build_arm_linux : targets :=
  {| SIMSIMD_TARGET_X86 := false; SIMSIMD_TARGET_ARM := true;
     SIMSIMD_TARGET_NEON := true; SIMSIMD_TARGET_SVE := true;
     SIMSIMD_TARGET_HASWELL := false; SIMSIMD_TARGET_SKYLAKE := false;
     SIMSIMD_TARGET_ICE := false; SIMSIMD_TARGET_SAPPHIRE := false;
     __linux__ := true; HWCAP_SVE := Z.shiftl 1 22; HWCAP2_SVE2 := Z.shiftl 1 1 |}.

Definition build_x86 : targets :=
  {| SIMSIMD_TARGET_X86 := true; SIMSIMD_TARGET_ARM := false;
     SIMSIMD_TARGET_NEON := false; SIMSIMD_TARGET_SVE := false;
     SIMSIMD_TARGET_HASWELL := true; SIMSIMD_TARGET_SKYLAKE := true;
     SIMSIMD_TARGET_ICE := true; SIMSIMD_TARGET_SAPPHIRE := true;
     __linux__ := true; HWCAP_SVE := Z.shiftl 1 22; HWCAP2_SVE2 := Z.shiftl 1 1 |}.

Definition no_registers : four_registers_t :=
  {| eax := 0; ebx := 0; ecx := 0; edx := 0 |}.

Definition plain_host : host :=
  {| cpuid_1 := no_registers; cpuid_7 := no_registers;
     getauxval_AT_HWCAP := 0; getauxval_AT_HWCAP2 := 0 |}.

(** ** Symbols against keys *)

(** The capability bit a kernel's symbol names. *)
Definition backend_cap (b : backend_name) : simsimd_capability_t :=
  match b with
  | serial => simsimd_cap_serial_k
  | neon => simsimd_cap_neon_k
  | sve => simsimd_cap_sve_k
  | haswell => simsimd_cap_haswell_k
  | skylake => simsimd_cap_skylake_k
  | ice => simsimd_cap_ice_k
  | sapphire => simsimd_cap_sapphire_k
  end.

(** The metric kind a kernel's symbol names. *)
Definition metric_code (m : metric_name) : simsimd_metric_kind_t :=
  match m with
  | dot => simsimd_metric_dot_k
  | vdot => simsimd_metric_vdot_k
  | cos => simsimd_metric_cos_k
  | l2sq => simsimd_metric_l2sq_k
  | hamming => simsimd_metric_hamming_k
  | jaccard => simsimd_metric_jaccard_k
  | js => simsimd_metric_js_k
  | kl => simsimd_metric_kl_k
  end.

(** The macro that guards the kernels of a backend. *)
Definition backend_compiled (T : targets) (b : backend_name) : bool :=
  match b with
  | serial => true
  | neon => SIMSIMD_TARGET_NEON T
  | sve => SIMSIMD_TARGET_SVE T
  | haswell => SIMSIMD_TARGET_HASWELL T
  | skylake => SIMSIMD_TARGET_SKYLAKE T
  | ice => SIMSIMD_TARGET_ICE T
  | sapphire => SIMSIMD_TARGET_SAPPHIRE T
  end.

(** The distinct values of [simsimd_metric_kind_t] other than unknown. *)
Definition metric_kinds : list simsimd_metric_kind_t :=
  [ simsimd_metric_dot_k; simsimd_metric_vdot_k; simsimd_metric_cos_k;
    simsimd_metric_l2sq_k; simsimd_metric_hamming_k; simsimd_metric_jaccard_k;
    simsimd_metric_kl_k; simsimd_metric_js_k ].

(** The capability bits the resolver tests. *)
Definition dispatch_tiers : simsimd_capability_t :=
  Z.lor simsimd_cap_serial_k (Z.lor simsimd_cap_neon_k (Z.lor simsimd_cap_sve_k
  (Z.lor simsimd_cap_haswell_k (Z.lor simsimd_cap_skylake_k
  (Z.lor simsimd_cap_ice_k simsimd_cap_sapphire_k))))).

(** The bits of the Arm tiers and of the x86 tiers. *)
Definition arm_tiers : simsimd_capability_t :=
  Z.lor simsimd_cap_neon_k (Z.lor simsimd_cap_sve_k simsimd_cap_sve2_k).

Definition x86_tiers : simsimd_capability_t :=
  Z.lor simsimd_cap_haswell_k (Z.lor simsimd_cap_skylake_k
  (Z.lor simsimd_cap_ice_k simsimd_cap_sapphire_k)).

(** [t] has exactly one bit. *)
Definition single_bit (t : Z) : bool := (0 <? t) && (t =? 2 ^ Z.log2 t).

(** The symbol of an entry names the tier of the entry, a tier the build
    compiles, and the kind of the entry; the one exception is the dot kind of
    i8, whose entries point to cosine kernels. *)
Definition well_named (T : targets) (e : kernel_entry) : bool :=
  (backend_cap (kernel_backend (entry_point e)) =? entry_tier e)
  && backend_compiled T (kernel_backend (entry_point e))
  && ((metric_code (kernel_metric (entry_point e)) =? entry_kind e)
      || ((entry_datatype e =? simsimd_datatype_i8_k)
          && (entry_kind e =? simsimd_metric_dot_k)
          && (metric_code (kernel_metric (entry_point e)) =? simsimd_metric_cos_k))).

(** The keys of an entry are in range: one tier bit, a kind of the
    enumeration, a datatype from f64 to f16c. *)
Definition well_keyed (e : kernel_entry) : bool :=
  single_bit (entry_tier e)
  && (Z.land (entry_tier e) dispatch_tiers =? entry_tier e)
  && existsb (Z.eqb (entry_kind e)) metric_kinds
  && (simsimd_datatype_f64_k <=? entry_datatype e)
  && (entry_datatype e <=? simsimd_datatype_f16c_k).

(** The tier of a block is among the bits the resolver tests. *)
Definition tests_dispatch_tier (b : tier_block) : bool :=
  Z.land (tier b) dispatch_tiers =? tier b.

(** The entries of the serial tier. *)
Definition baseline_entries (T : targets) : list kernel_entry :=
  filter (fun e => entry_tier e =? simsimd_cap_serial_k) (catalog T).

(** A feature query is compiled in: [cpuid] on x86, [getauxval] on Arm under
    Linux. *)
Definition query_compiled (T : targets) : bool :=
  SIMSIMD_TARGET_X86 T || (SIMSIMD_TARGET_ARM T && __linux__ T).

(** An Arm build for a system other than Linux. *)
Definition build_arm_other : targets :=
  {| SIMSIMD_TARGET_X86 := false; SIMSIMD_TARGET_ARM := true;
     SIMSIMD_TARGET_NEON := true; SIMSIMD_TARGET_SVE := false;
     SIMSIMD_TARGET_HASWELL := false; SIMSIMD_TARGET_SKYLAKE := false;
     SIMSIMD_TARGET_ICE := false; SIMSIMD_TARGET_SAPPHIRE := false;
     __linux__ := false; HWCAP_SVE := Z.shiftl 1 22; HWCAP2_SVE2 := Z.shiftl 1 1 |}.

(** * Properties *)

(** ** The inner switch and a single tier *)

Lemma switch_kind_In kind cs f :
  switch_kind kind cs = Some f -> In (kind, f) cs.
Proof.
  induction cs as [|[k g] cs IH]; simpl; [discriminate|].
  destruct (Z.eqb_spec kind k) as [->|_].
  - intros [= ->]. now left.
  - intros H. right. auto.
Qed.

Lemma switch_kind_has kind cs :
  existsb (Z.eqb kind) (map fst cs) = true ->
  exists f, switch_kind kind cs = Some f.
Proof.
  induction cs as [|[k g] cs IH]; simpl; [discriminate|].
  destruct (kind =? k); simpl; eauto.
Qed.

Lemma switch_kind_None kind cs :
  switch_kind kind cs = None -> existsb (Z.eqb kind) (map fst cs) = false.
Proof.
  induction cs as [|[k g] cs IH]; simpl; [reflexivity|].
  destruct (kind =? k); simpl; [discriminate | assumption].
Qed.

Lemma run_block_fires viable kind b o :
  fires viable kind b = true ->
  exists f, switch_kind kind (cases b) = Some f /\
    run_block viable kind b o =
      Returned {| metric_output := Some f; capability_output := tier b |}.
Proof.
  unfold fires, run_block. intros H.
  apply andb_prop in H as [-> H].
  destruct (switch_kind kind (cases b)) as [f|]; [|discriminate].
  exists f. split; reflexivity.
Qed.

Lemma run_block_skips viable kind b o :
  fires viable kind b = false -> run_block viable kind b o = Running o.
Proof.
  unfold fires, run_block. intros H.
  destruct (compiled b && negb (Z.land viable (tier b) =? 0)); [|reflexivity].
  simpl in H. destruct (switch_kind kind (cases b)); [discriminate | reflexivity].
Qed.

(** A tier without a case for [kind] is passed over, whether viable or not. *)
Lemma run_blocks_partial_tier viable kind b bs o :
  switch_kind kind (cases b) = None ->
  run_blocks viable kind (b :: bs) o = run_blocks viable kind bs o.
Proof.
  intros H. simpl. rewrite run_block_skips; [reflexivity|].
  unfold fires. rewrite H. apply andb_false_r.
Qed.

(** ** A cascade of tiers *)

Lemma run_blocks_none viable kind bs o :
  forallb (fun b => negb (fires viable kind b)) bs = true ->
  run_blocks viable kind bs o = Running o.
Proof.
  induction bs as [|b bs IH]; simpl; [reflexivity|].
  intros H. apply andb_prop in H as [Hb Hbs].
  apply negb_true_iff in Hb. rewrite (run_block_skips _ _ _ _ Hb). auto.
Qed.

Lemma run_blocks_Running viable kind bs o o' :
  run_blocks viable kind bs o = Running o' ->
  o' = o /\ forallb (fun b => negb (fires viable kind b)) bs = true.
Proof.
  induction bs as [|b bs IH]; simpl.
  - intros [= <-]. auto.
  - destruct (fires viable kind b) eqn:Hb.
    + destruct (run_block_fires _ _ _ o Hb) as (f & _ & ->). discriminate.
    + rewrite (run_block_skips _ _ _ _ Hb). simpl. exact IH.
Qed.

Lemma run_blocks_Returned viable kind bs o o' :
  run_blocks viable kind bs o = Returned o' ->
  exists b f, In b bs /\ compiled b = true /\ Z.land viable (tier b) <> 0 /\
    In (kind, f) (cases b) /\
    o' = {| metric_output := Some f; capability_output := tier b |}.
Proof.
  induction bs as [|b bs IH]; simpl; [discriminate|].
  destruct (fires viable kind b) eqn:Hb.
  - destruct (run_block_fires _ _ _ o Hb) as (f & Hf & ->).
    intros [= <-]. exists b, f. unfold fires in Hb.
    apply andb_prop in Hb as [Hb _]. apply andb_prop in Hb as [Hc Hv].
    apply negb_true_iff in Hv. apply Z.eqb_neq in Hv.
    repeat split; auto using switch_kind_In.
  - rewrite (run_block_skips _ _ _ _ Hb). intros H.
    destruct (IH H) as (b' & f & Hin & Hrest). exists b', f. split; [now right | exact Hrest].
Qed.

Lemma run_blocks_some_fires viable kind bs o :
  existsb (fires viable kind) bs = true ->
  exists o', run_blocks viable kind bs o = Returned o' /\ metric_output o' <> null.
Proof.
  induction bs as [|b bs IH]; simpl; [discriminate|].
  destruct (fires viable kind b) eqn:Hb; simpl.
  - intros _. destruct (run_block_fires _ _ _ o Hb) as (f & _ & ->).
    eexists. split; [reflexivity | discriminate].
  - rewrite (run_block_skips _ _ _ _ Hb). exact IH.
Qed.

Lemma run_blocks_app viable kind bs1 bs2 o :
  run_blocks viable kind (bs1 ++ bs2) o =
  match run_blocks viable kind bs1 o with
  | Returned o' => Returned o'
  | Running o' => run_blocks viable kind bs2 o'
  end.
Proof.
  revert o. induction bs1 as [|b bs1 IH]; intros o; simpl; [reflexivity|].
  destruct (run_block viable kind b o); auto.
Qed.

(** A block covered by a cascade in which nothing fired does not fire. *)
Lemma covered_by_quiet viable kind bs1 b2 :
  forallb (fun b => negb (fires viable kind b)) bs1 = true ->
  covered_by bs1 b2 = true ->
  fires viable kind b2 = false.
Proof.
  intros Hq Hc. unfold covered_by in Hc.
  destruct (fires viable kind b2) eqn:F; [|reflexivity]. exfalso.
  unfold fires in F. apply andb_prop in F as [F Hk]. apply andb_prop in F as [Hc2 Hv].
  rewrite Hc2 in Hc. simpl in Hc.
  apply existsb_exists in Hc as (b1 & Hin & Hb1).
  apply andb_prop in Hb1 as [Hb1 Hks]. apply andb_prop in Hb1 as [Hc1 Ht].
  apply Z.eqb_eq in Ht.
  rewrite forallb_forall in Hq. specialize (Hq b1 Hin).
  apply negb_true_iff in Hq. unfold fires in Hq.
  rewrite Hc1, Ht, Hv in Hq. simpl in Hq.
  destruct (switch_kind kind (cases b2)) as [f|] eqn:Hs; [|discriminate].
  apply switch_kind_In in Hs.
  rewrite forallb_forall in Hks.
  assert (Hin2 : In kind (map fst (cases b2))) by (apply in_map_iff; exists (kind, f); auto).
  specialize (Hks kind Hin2).
  destruct (switch_kind_has _ _ Hks) as (g & Hg). rewrite Hg in Hq. discriminate.
Qed.

(** ** Resolution on concrete requests *)

Example resolve_dot_f32_on_arm :
  simsimd_find_metric_punned build_arm_linux simsimd_metric_dot_k
    simsimd_datatype_f32_k simsimd_cap_any_k simsimd_cap_any_k cleared =
  {| metric_output := Some simsimd_dot_f32_neon;
     capability_output := simsimd_cap_neon_k |}.
Proof. reflexivity. Qed.

Example resolve_angular_alias_on_x86 :
  simsimd_find_metric_punned build_x86 simsimd_metric_angular_k
    simsimd_datatype_f64_k simsimd_cap_any_k simsimd_cap_any_k cleared =
  {| metric_output := Some simsimd_cos_f64_skylake;
     capability_output := simsimd_cap_skylake_k |}.
Proof. reflexivity. Qed.

Example resolve_vdot_f32c_falls_through_to_nothing :
  simsimd_find_metric_punned build_x86 simsimd_metric_vdot_k
    simsimd_datatype_f32c_k simsimd_cap_ice_k simsimd_cap_any_k cleared =
  {| metric_output := null; capability_output := 0 |}.
Proof. reflexivity. Qed.

Example probe_arm_linux_with_sve :
  simsimd_capabilities build_arm_linux
    {| cpuid_1 := no_registers; cpuid_7 := no_registers;
       getauxval_AT_HWCAP := Z.shiftl 1 22; getauxval_AT_HWCAP2 := 0 |} =
  Z.lor simsimd_cap_neon_k (Z.lor simsimd_cap_sve_k simsimd_cap_serial_k).
Proof. reflexivity. Qed.

(** ** The switch over datatypes *)

(** Case analysis on the build: only the six tier macros matter. *)
Ltac each_build T :=
  destruct T as [x86 arm [|] [|] [|] [|] [|] [|] lnx hw hw2].

(** Case analysis on the datatype, one goal per label and one for a value
    without a label. *)
Ltac each_datatype dt :=
  unfold datatype_cases;
  cbn [switch_datatype case_body fall_through label body breaks];
  repeat match goal with
         | |- context [dt =? ?l] => destruct (Z.eqb_spec dt l)
         end;
  cbn [app]; rewrite ?app_nil_r.

Lemma f32c_covers_f64c T :
  forallb (covered_by (case_f32c T)) (case_f64c T) = true.
Proof. each_build T; reflexivity. Qed.

(** The missing [break] after [case f32c]: when no tier of [f32c] has
    returned, no tier of [f64c] returns either. *)
Lemma f32c_fall_through_quiet T viable kind o o' :
  run_blocks viable kind (case_f32c T) o = Running o' ->
  run_blocks viable kind (case_f64c T) o' = Running o'.
Proof.
  intros H. apply run_blocks_Running in H as [_ Hq].
  apply run_blocks_none. apply forallb_forall. intros b Hb.
  apply negb_true_iff. apply (covered_by_quiet _ _ _ _ Hq).
  pose proof (f32c_covers_f64c T) as Hc. rewrite forallb_forall in Hc. auto.
Qed.

(** The resolver only ever returns from the [case] of the datatype itself. *)
Lemma switch_datatype_own_case T viable kind dt o :
  finish (run_blocks viable kind (switch_datatype dt (datatype_cases T)) o) =
  finish (run_blocks viable kind (case_body dt (datatype_cases T)) o).
Proof.
  each_datatype dt; try reflexivity.
  rewrite run_blocks_app.
  destruct (run_blocks viable kind (case_f32c T) o) as [o'|o'] eqn:H; [reflexivity|].
  now rewrite (f32c_fall_through_quiet _ _ _ _ _ H).
Qed.

Lemma find_metric_own_case T kind dt supported allowed out :
  simsimd_find_metric_punned T kind dt supported allowed out =
  finish (run_blocks (Z.land supported allowed) kind
            (case_body dt (datatype_cases T)) cleared).
Proof. unfold simsimd_find_metric_punned. apply switch_datatype_own_case. Qed.

(** The content of the output variables on entry is irrelevant. *)
Lemma find_metric_overwrites T kind dt supported allowed out out' :
  simsimd_find_metric_punned T kind dt supported allowed out =
  simsimd_find_metric_punned T kind dt supported allowed out'.
Proof. reflexivity. Qed.

(** ** The catalog against the switch *)

Lemma case_body_In dt arms b :
  In b (case_body dt arms) -> exists a, In a arms /\ label a = dt /\ In b (body a).
Proof.
  induction arms as [|a arms IH]; simpl; [tauto|].
  destruct (Z.eqb_spec dt (label a)) as [->|_].
  - intros H. exists a. auto.
  - intros H. destruct (IH H) as (a' & Ha & Hl & Hb). exists a'. auto.
Qed.

Lemma In_case_body arms a b :
  NoDup (map label arms) -> In a arms -> In b (body a) ->
  In b (case_body (label a) arms).
Proof.
  induction arms as [|a0 arms IH]; simpl; [tauto|].
  intros Hnd [->|Ha] Hb.
  - now rewrite Z.eqb_refl.
  - inversion Hnd as [|? ? Hnotin Hnd']; subst.
    destruct (Z.eqb_spec (label a) (label a0)) as [E|_].
    + exfalso. apply Hnotin. rewrite <- E. now apply in_map.
    + auto.
Qed.

Lemma datatype_labels_distinct T : NoDup (map label (datatype_cases T)).
Proof.
  simpl. repeat constructor; simpl; intros H;
    repeat (destruct H as [H|H]; [discriminate H|]); exact H.
Qed.

(** An entry of the catalog is a case of a compiled tier written under the
    [case] of its datatype, and conversely. *)
Lemma catalog_spec T e :
  In e (catalog T) <->
  exists b, In b (case_body (entry_datatype e) (datatype_cases T)) /\
    compiled b = true /\ tier b = entry_tier e /\
    In (entry_kind e, entry_point e) (cases b).
Proof.
  unfold catalog, arm_entries. split.
  - intros H. apply in_flat_map in H as (a & Ha & H).
    apply in_flat_map in H as (b & Hb & H).
    unfold block_entries in H. destruct (compiled b) eqn:Hc; [|contradiction].
    apply in_map_iff in H as ([k f] & <- & Hkf).
    cbn [entry_datatype entry_tier entry_kind entry_point fst snd].
    exists b. repeat split; auto.
    apply In_case_body; auto using datatype_labels_distinct.
  - intros (b & Hb & Hc & Ht & Hkf).
    apply case_body_In in Hb as (a & Ha & Hl & Hb).
    apply in_flat_map. exists a. split; [exact Ha|].
    apply in_flat_map. exists b. split; [exact Hb|].
    unfold block_entries. rewrite Hc. apply in_map_iff.
    exists (entry_kind e, entry_point e). split; [|exact Hkf].
    destruct e; simpl in *. now subst.
Qed.

(** What the resolver writes: nothing but the two zeroes, or an entry of the
    catalog under the requested datatype and kind whose tier is viable. *)
Lemma find_metric_spec T kind dt supported allowed out :
  let r := simsimd_find_metric_punned T kind dt supported allowed out in
  r = cleared \/
  exists f,
    r = {| metric_output := Some f; capability_output := capability_output r |} /\
    In {| entry_datatype := dt; entry_tier := capability_output r;
          entry_kind := kind; entry_point := f |} (catalog T) /\
    Z.land (Z.land supported allowed) (capability_output r) <> 0.
Proof.
  intros r. subst r. rewrite find_metric_own_case.
  destruct (run_blocks _ kind _ cleared) as [o'|o'] eqn:H; simpl.
  - right. apply run_blocks_Returned in H as (b & f & Hb & Hc & Hv & Hkf & ->).
    exists f. cbn [capability_output]. repeat split; auto.
    apply catalog_spec. exists b.
    cbn [entry_datatype entry_tier entry_kind entry_point]. auto.
  - left. apply run_blocks_Running in H as [-> _]. reflexivity.
Qed.

Lemma catalog_keyed_by_name T : forallb keyed_by_name (catalog T) = true.
Proof. each_build T; vm_compute; reflexivity. Qed.

Lemma registered_under_type T dt f :
  registered_under T dt f -> type_code (kernel_type f) = dt.
Proof.
  intros (e & He & <- & <-).
  pose proof (catalog_keyed_by_name T) as H. rewrite forallb_forall in H.
  apply Z.eqb_eq. exact (H e He).
Qed.

(** ** Resolution of [f32c] *)

(** C1: for every metric kind and all supported and allowed masks, resolving
    datatype f32c writes either an entry point registered under f32c or the
    null entry point with zero capability; the missing [break] after
    [case f32c] never lets it write an entry point registered under f64c. *)
Theorem f32c_resolves_within_f32c T kind supported allowed out :
  let r := simsimd_find_metric_punned T kind simsimd_datatype_f32c_k
             supported allowed out in
  ((exists f, metric_output r = Some f /\
              registered_under T simsimd_datatype_f32c_k f)
   \/ (metric_output r = null /\ capability_output r = 0))
  /\ (forall f, metric_output r = Some f ->
                ~ registered_under T simsimd_datatype_f64c_k f).
Proof.
  intros r.
  assert (H : (exists f, metric_output r = Some f /\
                         registered_under T simsimd_datatype_f32c_k f)
              \/ (metric_output r = null /\ capability_output r = 0)).
  { pose proof (find_metric_spec T kind simsimd_datatype_f32c_k
                  supported allowed out) as S.
    cbv zeta in S. fold r in S. destruct S as [E|(f & E & Hin & _)].
    - right. rewrite E. split; reflexivity.
    - left. exists f. split; [rewrite E; reflexivity|].
      eexists. split; [exact Hin|]. split; reflexivity. }
  split; [exact H|].
  intros f Hf Hreg.
  destruct H as [(g & Hg & Hreg')|[Hnull _]]; [|unfold null in Hnull; congruence].
  assert (g = f) by congruence. subst g.
  apply registered_under_type in Hreg, Hreg'. rewrite Hreg in Hreg'. discriminate.
Qed.

(** ** Baseline-only resolution *)

Lemma In_switch_kind kind f cs :
  In (kind, f) cs -> exists g, switch_kind kind cs = Some g.
Proof.
  intros H. apply switch_kind_has. apply existsb_exists.
  exists kind. split; [|apply Z.eqb_refl].
  apply in_map_iff. exists (kind, f). auto.
Qed.

Lemma tier_registers_fires T t kind dt viable :
  tier_registers T t kind dt -> Z.land viable t <> 0 ->
  existsb (fires viable kind) (case_body dt (datatype_cases T)) = true.
Proof.
  intros (f & Hin) Hv. apply catalog_spec in Hin as (b & Hb & Hc & Ht & Hkf).
  cbn [entry_datatype entry_tier entry_kind entry_point] in *.
  apply existsb_exists. exists b. split; [exact Hb|].
  unfold fires. rewrite Hc, Ht.
  apply Z.eqb_neq in Hv. rewrite Hv.
  destruct (In_switch_kind _ _ _ Hkf) as (g & ->). reflexivity.
Qed.

Lemma find_metric_some_fires T kind dt supported allowed out :
  existsb (fires (Z.land supported allowed) kind)
          (case_body dt (datatype_cases T)) = true ->
  metric_output (simsimd_find_metric_punned T kind dt supported allowed out) <> null.
Proof.
  intros H. rewrite find_metric_own_case.
  destruct (run_blocks_some_fires _ _ _ cleared H) as (o' & -> & Ho'). exact Ho'.
Qed.

(** C2, as amended: for every (kind, datatype) pair that the serial tier
    registers and every supported mask that has the serial bit, resolution
    with allowed restricted to the serial bit writes a non-null entry point. *)
Theorem serial_only_resolves T kind dt supported out :
  tier_registers T simsimd_cap_serial_k kind dt ->
  Z.land supported simsimd_cap_serial_k <> 0 ->
  metric_output (simsimd_find_metric_punned T kind dt supported
                   simsimd_cap_serial_k out) <> null.
Proof.
  intros Hreg Hs. apply find_metric_some_fires.
  apply (tier_registers_fires _ _ _ _ _ Hreg).
  rewrite <- Z.land_assoc. exact Hs.
Qed.

Lemma serial_registers_dot_f32 T :
  tier_registers T simsimd_cap_serial_k simsimd_metric_dot_k simsimd_datatype_f32_k.
Proof.
  exists simsimd_dot_f32_serial. apply catalog_spec.
  exists {| compiled := true; tier := simsimd_cap_serial_k; cases :=
      [ (simsimd_metric_dot_k, simsimd_dot_f32_serial);
        (simsimd_metric_cos_k, simsimd_cos_f32_serial);
        (simsimd_metric_l2sq_k, simsimd_l2sq_f32_serial);
        (simsimd_metric_js_k, simsimd_js_f32_serial);
        (simsimd_metric_kl_k, simsimd_kl_f32_serial) ] |}.
  cbn [entry_datatype entry_tier entry_kind entry_point compiled tier cases].
  repeat split; [|now left].
  change (case_body simsimd_datatype_f32_k (datatype_cases T)) with (case_f32 T).
  unfold case_f32. right. right. now left.
Qed.

Lemma serial_only_resolves_witness :
  tier_registers build_x86 simsimd_cap_serial_k
    simsimd_metric_dot_k simsimd_datatype_f32_k /\
  Z.land (Z.lor simsimd_cap_haswell_k simsimd_cap_serial_k)
         simsimd_cap_serial_k <> 0 /\
  metric_output (simsimd_find_metric_punned build_x86 simsimd_metric_dot_k
                   simsimd_datatype_f32_k
                   (Z.lor simsimd_cap_haswell_k simsimd_cap_serial_k)
                   simsimd_cap_serial_k cleared) <> null.
Proof.
  assert (Hs : Z.land (Z.lor simsimd_cap_haswell_k simsimd_cap_serial_k)
                      simsimd_cap_serial_k <> 0) by (vm_compute; discriminate).
  split; [apply serial_registers_dot_f32|]. split; [exact Hs|].
  exact (serial_only_resolves build_x86 _ _ _ cleared
           (serial_registers_dot_f32 build_x86) Hs).
Defined.

(** C2, as stated, fails: the serial tier registers (dot, f32), yet with a
    supported mask that lacks the serial bit the serial-only resolution
    writes the null entry point. *)
Lemma serial_only_needs_supported_serial :
  tier_registers build_x86 simsimd_cap_serial_k
    simsimd_metric_dot_k simsimd_datatype_f32_k /\
  metric_output (simsimd_find_metric_punned build_x86 simsimd_metric_dot_k
                   simsimd_datatype_f32_k simsimd_cap_haswell_k
                   simsimd_cap_serial_k cleared) = null.
Proof. split; [apply serial_registers_dot_f32 | reflexivity]. Qed.

(** ** Monotonicity in the allowed mask *)

Lemma mask_subset_viable supported a1 a2 t :
  mask_subset a1 a2 ->
  Z.land (Z.land supported a1) t <> 0 -> Z.land (Z.land supported a2) t <> 0.
Proof.
  unfold mask_subset. intros Hsub H1 H2. apply H1.
  assert (E : forall n, Z.testbit a1 n = Z.testbit a1 n && Z.testbit a2 n)
    by (intros n; rewrite <- Z.land_spec, Hsub; reflexivity).
  assert (E2 : forall n, Z.testbit supported n && Z.testbit a2 n && Z.testbit t n = false)
    by (intros n; rewrite <- !Z.land_spec, H2; apply Z.bits_0).
  apply Z.bits_inj'. intros n _. rewrite !Z.land_spec, Z.bits_0, (E n).
  specialize (E2 n).
  destruct (Z.testbit supported n), (Z.testbit a1 n), (Z.testbit a2 n),
    (Z.testbit t n); simpl in *; congruence.
Qed.

Lemma fires_monotone v1 v2 kind b :
  (forall t, Z.land v1 t <> 0 -> Z.land v2 t <> 0) ->
  fires v2 kind b = false -> fires v1 kind b = false.
Proof.
  unfold fires. intros Hv H.
  destruct (compiled b); [simpl in *|reflexivity].
  destruct (switch_kind kind (cases b)); [|apply andb_false_r].
  rewrite andb_true_r in *. apply negb_false_iff in H. apply Z.eqb_eq in H.
  apply negb_false_iff. apply Z.eqb_eq.
  destruct (Z.eq_dec (Z.land v1 (tier b)) 0) as [E|E]; [exact E|].
  elim (Hv _ E H).
Qed.

(** The capability a cascade leaves is the one it started with or the tier of
    one of its compiled blocks. *)
Lemma run_blocks_capability viable kind bs o :
  let c := capability_output (finish (run_blocks viable kind bs o)) in
  c = capability_output o \/ In c (map tier (filter compiled bs)).
Proof.
  cbv zeta.
  destruct (run_blocks viable kind bs o) as [o'|o'] eqn:H; simpl.
  - apply run_blocks_Returned in H as (b & f & Hb & Hc & _ & _ & ->). simpl.
    right. apply in_map. apply filter_In. auto.
  - apply run_blocks_Running in H as [-> _]. now left.
Qed.

Lemma position_cons_neq c t order :
  c <> t -> position c (t :: order) = S (position c order).
Proof. intros H. simpl. apply Z.eqb_neq in H. now rewrite H. Qed.

Lemma distinct_nonzero_cons t order :
  distinct_nonzero (t :: order) = true ->
  t <> 0 /\ ~ In t order /\ distinct_nonzero order = true.
Proof.
  simpl. intros H. apply andb_prop in H as [H Hd]. apply andb_prop in H as [H0 Hn].
  apply negb_true_iff in H0, Hn. apply Z.eqb_neq in H0.
  repeat split; auto.
  intros Hin. assert (existsb (Z.eqb t) order = true); [|congruence].
  apply existsb_exists. exists t. split; [exact Hin | apply Z.eqb_refl].
Qed.

(** Under a smaller viable mask a cascade returns from the same block or from
    a later one, or not at all. *)
Lemma run_blocks_monotone v1 v2 kind bs :
  (forall t, Z.land v1 t <> 0 -> Z.land v2 t <> 0) ->
  distinct_nonzero (map tier (filter compiled bs)) = true ->
  (position (capability_output (finish (run_blocks v2 kind bs cleared)))
            (map tier (filter compiled bs))
   <= position (capability_output (finish (run_blocks v1 kind bs cleared)))
               (map tier (filter compiled bs)))%nat.
Proof.
  intros Hv. induction bs as [|b bs IH]; [intros _; apply Nat.le_refl|].
  cbn [filter run_blocks]. destruct (compiled b) eqn:Hc.
  - cbn [map]. intros Hd.
    apply distinct_nonzero_cons in Hd as (H0 & Hnotin & Hd).
    destruct (fires v2 kind b) eqn:F2.
    + destruct (run_block_fires _ _ _ cleared F2) as (f & _ & ->).
      cbn [finish capability_output position]. rewrite Z.eqb_refl. apply Nat.le_0_l.
    + pose proof (fires_monotone _ _ _ _ Hv F2) as F1.
      rewrite (run_block_skips _ _ _ _ F1), (run_block_skips _ _ _ _ F2).
      assert (Hne : forall v, capability_output
                 (finish (run_blocks v kind bs cleared)) <> tier b).
      { intros v E.
        destruct (run_blocks_capability v kind bs cleared) as [Hz|Hin].
        - apply H0. rewrite <- E, Hz. reflexivity.
        - apply Hnotin. rewrite <- E. exact Hin. }
      rewrite !position_cons_neq by apply Hne.
      apply le_n_S. apply IH. exact Hd.
  - intros Hd.
    assert (F : forall v, fires v kind b = false)
      by (intros v; unfold fires; rewrite Hc; reflexivity).
    rewrite !(run_block_skips _ _ _ _ (F _)). apply IH. exact Hd.
Qed.

Lemma tier_order_distinct T dt : distinct_nonzero (tier_order T dt) = true.
Proof.
  unfold tier_order. each_datatype dt; each_build T; reflexivity.
Qed.

(** C3: for fixed kind, datatype and supported mask, if [allowed1] is a subset
    of [allowed2] then the tier written under [allowed1] stands at an equal
    or later position in the datatype's tier-examination order than the tier
    written under [allowed2]; writing no tier counts as the last position. *)
Theorem allowed_monotone T kind dt supported allowed1 allowed2 out1 out2 :
  mask_subset allowed1 allowed2 ->
  (priority_rank T dt
     (capability_output
        (simsimd_find_metric_punned T kind dt supported allowed2 out2))
   <= priority_rank T dt
        (capability_output
           (simsimd_find_metric_punned T kind dt supported allowed1 out1)))%nat.
Proof.
  intros Hsub. rewrite !find_metric_own_case. unfold priority_rank, tier_order.
  apply run_blocks_monotone.
  - intros t. now apply mask_subset_viable.
  - apply (tier_order_distinct T dt).
Qed.

Lemma allowed_monotone_witness :
  mask_subset (Z.lor simsimd_cap_neon_k simsimd_cap_serial_k) simsimd_cap_any_k /\
  (priority_rank build_arm_linux simsimd_datatype_f16_k
     (capability_output
        (simsimd_find_metric_punned build_arm_linux simsimd_metric_dot_k
           simsimd_datatype_f16_k simsimd_cap_any_k simsimd_cap_any_k cleared))
   <= priority_rank build_arm_linux simsimd_datatype_f16_k
        (capability_output
           (simsimd_find_metric_punned build_arm_linux simsimd_metric_dot_k
              simsimd_datatype_f16_k simsimd_cap_any_k
              (Z.lor simsimd_cap_neon_k simsimd_cap_serial_k) cleared)))%nat.
Proof.
  assert (H : mask_subset (Z.lor simsimd_cap_neon_k simsimd_cap_serial_k)
                          simsimd_cap_any_k) by (vm_compute; reflexivity).
  split; [exact H|].
  exact (allowed_monotone build_arm_linux simsimd_metric_dot_k
           simsimd_datatype_f16_k simsimd_cap_any_k _ _ cleared cleared H).
Defined.

(** ** Completeness of the baseline tier *)

Lemma case_body_baseline_complete T dt :
  baseline_complete (case_body dt (datatype_cases T)) = true.
Proof. each_datatype dt; each_build T; reflexivity. Qed.

Lemma find_metric_nonnull T kind dt supported allowed out :
  metric_output (simsimd_find_metric_punned T kind dt supported allowed out)
    <> null ->
  exists b f, In b (case_body dt (datatype_cases T)) /\ compiled b = true /\
    In (kind, f) (cases b).
Proof.
  rewrite find_metric_own_case.
  destruct (run_blocks _ kind _ cleared) as [o'|o'] eqn:H; simpl.
  - intros _. apply run_blocks_Returned in H as (b & f & Hb & Hc & _ & Hkf & _).
    exists b, f. auto.
  - apply run_blocks_Running in H as [-> _]. intros H. now elim H.
Qed.

(** C4: whenever the resolver writes a non-null entry point for a kind and a
    datatype, the serial tier registers that pair too: resolving the same
    pair with supported = allowed = the serial bit also writes a non-null
    entry point. *)
Theorem serial_tier_complete T kind dt supported allowed out :
  metric_output (simsimd_find_metric_punned T kind dt supported allowed out)
    <> null ->
  tier_registers T simsimd_cap_serial_k kind dt /\
  metric_output (simsimd_find_metric_punned T kind dt simsimd_cap_serial_k
                   simsimd_cap_serial_k out) <> null.
Proof.
  intros H. apply find_metric_nonnull in H as (b & f & Hb & _ & Hkf).
  assert (Hreg : tier_registers T simsimd_cap_serial_k kind dt).
  { pose proof (case_body_baseline_complete T dt) as Hc.
    unfold baseline_complete in Hc. rewrite forallb_forall in Hc.
    specialize (Hc b Hb). apply existsb_exists in Hc as (b' & Hb' & Hc).
    apply andb_prop in Hc as [Hc Hks]. apply andb_prop in Hc as [Hc Ht].
    apply Z.eqb_eq in Ht. rewrite forallb_forall in Hks.
    assert (Hk : In kind (map fst (cases b)))
      by (apply in_map_iff; exists (kind, f); auto).
    destruct (switch_kind_has _ _ (Hks kind Hk)) as (g & Hg).
    exists g. apply catalog_spec. exists b'.
    cbn [entry_datatype entry_tier entry_kind entry_point].
    auto using switch_kind_In. }
  split; [exact Hreg|].
  apply find_metric_some_fires.
  apply (tier_registers_fires _ _ _ _ _ Hreg). vm_compute. discriminate.
Qed.

Lemma serial_tier_complete_witness :
  metric_output (simsimd_find_metric_punned build_x86 simsimd_metric_hamming_k
                   simsimd_datatype_b8_k simsimd_cap_any_k simsimd_cap_any_k
                   cleared) <> null /\
  tier_registers build_x86 simsimd_cap_serial_k simsimd_metric_hamming_k
    simsimd_datatype_b8_k /\
  metric_output (simsimd_find_metric_punned build_x86 simsimd_metric_hamming_k
                   simsimd_datatype_b8_k simsimd_cap_serial_k
                   simsimd_cap_serial_k cleared) <> null.
Proof.
  assert (H : metric_output
                (simsimd_find_metric_punned build_x86 simsimd_metric_hamming_k
                   simsimd_datatype_b8_k simsimd_cap_any_k simsimd_cap_any_k
                   cleared) <> null) by (vm_compute; discriminate).
  split; [exact H|].
  exact (serial_tier_complete build_x86 _ _ _ _ cleared H).
Defined.

(** ** Unsupported combinations *)

(** C5: for a (kind, datatype) pair that no tier of the catalog registers,
    such as jaccard with f32, the resolver writes the null entry point and
    the zero capability for all supported and allowed masks; being a total
    function of its inputs, it has no other way to signal it. *)
Theorem unregistered_pair_is_null T kind dt supported allowed out :
  ~ registered_somewhere T kind dt ->
  simsimd_find_metric_punned T kind dt supported allowed out =
    {| metric_output := null; capability_output := 0 |}.
Proof.
  intros Hno.
  destruct (find_metric_spec T kind dt supported allowed out)
    as [E|(f & _ & Hin & _)]; [exact E|].
  elim Hno. eexists. exists f. exact Hin.
Qed.

Lemma jaccard_f32_unregistered T :
  ~ registered_somewhere T simsimd_metric_jaccard_k simsimd_datatype_f32_k.
Proof.
  intros (t & f & Hin). apply catalog_spec in Hin as (b & Hb & _ & _ & Hkf).
  cbn [entry_datatype entry_kind entry_point] in *.
  change (case_body simsimd_datatype_f32_k (datatype_cases T))
    with (case_f32 T) in Hb.
  unfold case_f32 in Hb.
  repeat (destruct Hb as [<-|Hb];
          [cbn [cases] in Hkf;
           repeat (destruct Hkf as [Hkf|Hkf]; [discriminate Hkf|]); exact Hkf|]).
  exact Hb.
Qed.

Lemma unregistered_pair_is_null_witness :
  ~ registered_somewhere build_arm_linux simsimd_metric_jaccard_k
      simsimd_datatype_f32_k /\
  simsimd_find_metric_punned build_arm_linux simsimd_metric_jaccard_k
    simsimd_datatype_f32_k simsimd_cap_any_k simsimd_cap_any_k cleared =
    {| metric_output := null; capability_output := 0 |}.
Proof.
  split; [apply jaccard_f32_unregistered|].
  exact (unregistered_pair_is_null build_arm_linux _ _ _ _ cleared
           (jaccard_f32_unregistered build_arm_linux)).
Defined.

(** ** Partial coverage of a tier *)

(** The js kind of f16 in a build that compiles the NEON tier: the SVE block
    has only dot, cos and l2sq, and the cascade goes on to the NEON block. *)
Lemma js_f16_resolves_to_neon T supported allowed out :
  SIMSIMD_TARGET_NEON T = true ->
  Z.land (Z.land supported allowed) simsimd_cap_sve_k <> 0 ->
  Z.land (Z.land supported allowed) simsimd_cap_neon_k <> 0 ->
  simsimd_find_metric_punned T simsimd_metric_js_k simsimd_datatype_f16_k
    supported allowed out =
    {| metric_output := Some simsimd_js_f16_neon;
       capability_output := simsimd_cap_neon_k |}.
Proof.
  intros HN _ Hneon. rewrite find_metric_own_case.
  change (case_body simsimd_datatype_f16_k (datatype_cases T)) with (case_f16 T).
  unfold case_f16. rewrite run_blocks_partial_tier by reflexivity.
  cbn [run_blocks]. unfold run_block at 1. cbn [compiled tier cases].
  rewrite HN. apply Z.eqb_neq in Hneon. rewrite Hneon. reflexivity.
Qed.

(** ** The capability probe *)

Ltac each_feature :=
  repeat match goal with
         | |- context [Z.land ?r ?m =? 0] => destruct (Z.land r m =? 0)
         end.

Lemma capabilities_x86_shape h :
  Z.land (capabilities_x86 h) simsimd_cap_serial_k = simsimd_cap_serial_k /\
  exists adv, Z.land adv advanced_tiers = adv /\
              capabilities_x86 h = Z.lor adv simsimd_cap_serial_k.
Proof.
  unfold capabilities_x86. cbv zeta.
  split; [|eexists; split; [|reflexivity]];
    unfold ne0, land_c; each_feature; reflexivity.
Qed.

Lemma capabilities_arm_shape T h :
  Z.land (capabilities_arm T h) simsimd_cap_serial_k = simsimd_cap_serial_k /\
  exists adv, Z.land adv advanced_tiers = adv /\
              capabilities_arm T h = Z.lor adv simsimd_cap_serial_k.
Proof.
  unfold capabilities_arm. cbv zeta.
  destruct (__linux__ T);
    (split; [|eexists; split; [|reflexivity]]);
    unfold ne0; each_feature; reflexivity.
Qed.

(** On Arm the NEON bit does not depend on a query: without Linux the probe
    returns NEON and serial, whatever the host. *)
Lemma capabilities_arm_without_linux T h :
  SIMSIMD_TARGET_X86 T = false -> SIMSIMD_TARGET_ARM T = true ->
  __linux__ T = false ->
  simsimd_capabilities T h = Z.lor simsimd_cap_neon_k simsimd_cap_serial_k.
Proof.
  intros Hx Ha Hl. unfold simsimd_capabilities, capabilities_arm.
  rewrite Hx, Ha, Hl. reflexivity.
Qed.

(** ** The convenience form *)

(** C8: for every kind, datatype and allowed mask, [simsimd_metric_punned]
    returns exactly the entry point that [simsimd_find_metric_punned] writes
    when its supported mask is the result of [simsimd_capabilities], whatever
    the output variables held before the call. *)
Theorem metric_punned_is_find T h kind dt allowed out :
  simsimd_metric_punned T h kind dt allowed =
  metric_output
    (simsimd_find_metric_punned T kind dt (simsimd_capabilities T h) allowed out).
Proof.
  unfold simsimd_metric_punned. cbv zeta.
  now rewrite (find_metric_overwrites T kind dt _ allowed _ out).
Qed.

(** ** 8-bit integers *)

Lemma run_blocks_ext viable k1 k2 bs o :
  (forall b, In b bs -> switch_kind k1 (cases b) = switch_kind k2 (cases b)) ->
  run_blocks viable k1 bs o = run_blocks viable k2 bs o.
Proof.
  revert o. induction bs as [|b bs IH]; intros o H; [reflexivity|].
  cbn [run_blocks]. unfold run_block. rewrite (H b (or_introl eq_refl)).
  destruct (compiled b && negb (Z.land viable (tier b) =? 0));
    [destruct (switch_kind k2 (cases b))|]; auto using in_cons.
Qed.

(** The dot kind of i8 resolves like the cos kind, and to a cosine kernel. *)
Lemma i8_dot_resolves_like_cos T supported allowed out :
  simsimd_find_metric_punned T simsimd_metric_dot_k simsimd_datatype_i8_k
    supported allowed out =
  simsimd_find_metric_punned T simsimd_metric_cos_k simsimd_datatype_i8_k
    supported allowed out
  /\ forall f,
       metric_output
         (simsimd_find_metric_punned T simsimd_metric_dot_k
            simsimd_datatype_i8_k supported allowed out) = Some f ->
       In f [simsimd_cos_i8_neon; simsimd_cos_i8_ice;
             simsimd_cos_i8_haswell; simsimd_cos_i8_serial].
Proof.
  split.
  - rewrite !find_metric_own_case. apply f_equal. apply run_blocks_ext.
    change (case_body simsimd_datatype_i8_k (datatype_cases T)) with (case_i8 T).
    unfold case_i8. intros b Hb.
    repeat (destruct Hb as [<-|Hb]; [reflexivity|]); try contradiction.
  - intros f Hf.
    destruct (find_metric_spec T simsimd_metric_dot_k simsimd_datatype_i8_k
                supported allowed out) as [E|(g & E & Hin & _)].
    + rewrite E in Hf. discriminate.
    + rewrite E in Hf. cbn [metric_output] in Hf. injection Hf as ->.
      apply catalog_spec in Hin as (b & Hb & _ & _ & Hkf).
      cbn [entry_datatype entry_kind entry_point] in *.
      change (case_body simsimd_datatype_i8_k (datatype_cases T))
        with (case_i8 T) in Hb.
      unfold case_i8 in Hb.
      repeat (destruct Hb as [<-|Hb];
        [cbn [cases] in Hkf;
         repeat (destruct Hkf as [Hkf|Hkf];
                 [first [discriminate Hkf
                        | injection Hkf as <-; cbn [In]; tauto]|]);
         try contradiction|]);
      try contradiction.
Qed.

(** ** Datatypes without kernels *)

(** C10: for datatype i8c and for datatype unknown the resolver writes the
    null entry point and the zero capability, for every kind and all masks:
    [case unknown] is empty and there is no [case i8c]. *)
Theorem i8c_and_unknown_unsupported T kind supported allowed out :
  simsimd_find_metric_punned T kind simsimd_datatype_i8c_k supported allowed out
    = {| metric_output := null; capability_output := 0 |}
  /\ simsimd_find_metric_punned T kind simsimd_datatype_unknown_k
       supported allowed out
     = {| metric_output := null; capability_output := 0 |}.
Proof. split; reflexivity. Qed.

(** * Further properties of the dispatch engine *)

(** ** Bit masks *)

Lemma land_pow2 v n :
  0 <= n -> Z.land v (2 ^ n) = if Z.testbit v n then 2 ^ n else 0.
Proof.
  intros Hn. apply Z.bits_inj'. intros m Hm.
  rewrite Z.land_spec, Z.pow2_bits_eqb by exact Hn.
  destruct (Z.eqb_spec n m) as [->|Hne].
  - destruct (Z.testbit v m) eqn:E.
    + rewrite Z.pow2_bits_eqb, Z.eqb_refl by exact Hm. reflexivity.
    + now rewrite Z.bits_0.
  - rewrite andb_false_r. destruct (Z.testbit v n).
    + rewrite Z.pow2_bits_eqb by exact Hn.
      symmetry. apply Z.eqb_neq. exact Hne.
    + now rewrite Z.bits_0.
Qed.

Lemma single_bit_land v t :
  single_bit t = true -> Z.land v t <> 0 -> Z.land v t = t.
Proof.
  unfold single_bit. intros H Hv. apply andb_prop in H as [_ H].
  apply Z.eqb_eq in H. rewrite H in *.
  rewrite land_pow2 in * by apply Z.log2_nonneg.
  destruct (Z.testbit v (Z.log2 t)); [reflexivity | now elim Hv].
Qed.

Lemma land_land_subset s a c :
  Z.land (Z.land s a) c = c -> Z.land s c = c /\ Z.land a c = c.
Proof.
  intros H.
  assert (E : forall n, Z.testbit s n && Z.testbit a n && Z.testbit c n
                        = Z.testbit c n)
    by (intros n; rewrite <- !Z.land_spec, H; reflexivity).
  split; apply Z.bits_inj'; intros n _; rewrite Z.land_spec;
    specialize (E n);
    destruct (Z.testbit s n), (Z.testbit a n), (Z.testbit c n);
    simpl in *; congruence.
Qed.

(** ** The catalog, entry by entry *)

Lemma catalog_well_named T : forallb (well_named T) (catalog T) = true.
Proof. each_build T; vm_compute; reflexivity. Qed.

Lemma catalog_well_keyed T : forallb well_keyed (catalog T) = true.
Proof. each_build T; vm_compute; reflexivity. Qed.

Lemma catalog_entry_named T e :
  In e (catalog T) -> well_named T e = true.
Proof.
  pose proof (catalog_well_named T) as H. rewrite forallb_forall in H. auto.
Qed.

Lemma catalog_entry_keyed T e :
  In e (catalog T) -> well_keyed e = true.
Proof.
  pose proof (catalog_well_keyed T) as H. rewrite forallb_forall in H. auto.
Qed.

Lemma catalog_entry_type T e :
  In e (catalog T) -> type_code (kernel_type (entry_point e)) = entry_datatype e.
Proof.
  pose proof (catalog_keyed_by_name T) as H. rewrite forallb_forall in H.
  intros He. apply Z.eqb_eq. exact (H e He).
Qed.

(** The two shapes of a result, with the zero capability excluded from the
    second. *)
Lemma find_metric_result T kind dt supported allowed out :
  let r := simsimd_find_metric_punned T kind dt supported allowed out in
  (metric_output r = null /\ capability_output r = 0) \/
  (exists f, metric_output r = Some f /\
     In {| entry_datatype := dt; entry_tier := capability_output r;
           entry_kind := kind; entry_point := f |} (catalog T) /\
     Z.land (Z.land supported allowed) (capability_output r)
       = capability_output r /\
     capability_output r <> 0).
Proof.
  cbv zeta.
  destruct (find_metric_spec T kind dt supported allowed out)
    as [E|(f & E & Hin & Hv)].
  - left. rewrite E. split; reflexivity.
  - right. exists f. split; [rewrite E; reflexivity|]. split; [exact Hin|].
    pose proof (catalog_entry_keyed _ _ Hin) as Hk. unfold well_keyed in Hk.
    cbn [entry_tier] in Hk.
    do 4 (apply andb_prop in Hk as [Hk _]).
    split; [now apply single_bit_land|].
    intros E0. rewrite E0, Z.land_0_r in Hv. now elim Hv.
Qed.

(** X1: the two outputs agree: the entry point is null exactly when the
    capability written is zero, so a caller may test either. *)
Theorem null_iff_zero_capability T kind dt supported allowed out :
  let r := simsimd_find_metric_punned T kind dt supported allowed out in
  metric_output r = null <-> capability_output r = 0.
Proof.
  cbv zeta.
  destruct (find_metric_result T kind dt supported allowed out)
    as [[Hm Hc]|(f & Hm & _ & _ & Hc)].
  - tauto.
  - rewrite Hm. split; [discriminate | intros E; now elim Hc].
Qed.

(** X2: the capability written is contained in both masks: the resolver
    never selects a tier that is not supported, nor one that is not
    allowed. *)
Theorem selected_tier_supported_and_allowed T kind dt supported allowed out :
  let c := capability_output
             (simsimd_find_metric_punned T kind dt supported allowed out) in
  Z.land supported c = c /\ Z.land allowed c = c.
Proof.
  cbv zeta.
  destruct (find_metric_result T kind dt supported allowed out)
    as [[_ Hc]|(f & _ & _ & Hv & _)].
  - rewrite Hc, !Z.land_0_r. split; reflexivity.
  - now apply land_land_subset.
Qed.

(** X3: a non-null result is an entry of the catalog keyed by exactly the
    requested datatype and kind and by the capability written. *)
Theorem result_is_catalog_entry T kind dt supported allowed out f :
  metric_output (simsimd_find_metric_punned T kind dt supported allowed out)
    = Some f ->
  In {| entry_datatype := dt;
        entry_tier := capability_output
          (simsimd_find_metric_punned T kind dt supported allowed out);
        entry_kind := kind; entry_point := f |} (catalog T).
Proof.
  intros Hf.
  destruct (find_metric_result T kind dt supported allowed out)
    as [[Hm _]|(g & Hm & Hin & _)]; rewrite Hm in Hf.
  - discriminate.
  - injection Hf as <-. exact Hin.
Qed.

Lemma result_is_catalog_entry_witness :
  metric_output (simsimd_find_metric_punned build_x86 simsimd_metric_kl_k
                   simsimd_datatype_f16_k simsimd_cap_any_k simsimd_cap_any_k
                   cleared) = Some simsimd_kl_f16_sapphire /\
  In {| entry_datatype := simsimd_datatype_f16_k;
        entry_tier := capability_output
          (simsimd_find_metric_punned build_x86 simsimd_metric_kl_k
             simsimd_datatype_f16_k simsimd_cap_any_k simsimd_cap_any_k cleared);
        entry_kind := simsimd_metric_kl_k;
        entry_point := simsimd_kl_f16_sapphire |} (catalog build_x86).
Proof.
  assert (H : metric_output
                (simsimd_find_metric_punned build_x86 simsimd_metric_kl_k
                   simsimd_datatype_f16_k simsimd_cap_any_k simsimd_cap_any_k
                   cleared) = Some simsimd_kl_f16_sapphire) by reflexivity.
  split; [exact H|].
  exact (result_is_catalog_entry build_x86 _ _ _ _ cleared _ H).
Defined.

(** X4: the symbol of a resolved kernel agrees with the request: it names
    the requested datatype, the capability written, and the requested kind;
    the only exception is the dot kind of i8, which yields a cosine
    kernel. *)
Theorem resolved_symbol_matches_request T kind dt supported allowed out f :
  metric_output (simsimd_find_metric_punned T kind dt supported allowed out)
    = Some f ->
  type_code (kernel_type f) = dt /\
  backend_cap (kernel_backend f)
    = capability_output
        (simsimd_find_metric_punned T kind dt supported allowed out) /\
  (metric_code (kernel_metric f) = kind \/
   (dt = simsimd_datatype_i8_k /\ kind = simsimd_metric_dot_k /\
    kernel_metric f = cos)).
Proof.
  intros Hf.
  destruct (find_metric_result T kind dt supported allowed out)
    as [[Hm _]|(g & Hm & Hin & _)]; rewrite Hm in Hf; [discriminate|].
  injection Hf as <-.
  pose proof (catalog_entry_type _ _ Hin) as Ht.
  pose proof (catalog_entry_named _ _ Hin) as Hn. unfold well_named in Hn.
  cbn [entry_datatype entry_tier entry_kind entry_point] in *.
  apply andb_prop in Hn as [Hn Hk]. apply andb_prop in Hn as [Hb _].
  apply Z.eqb_eq in Hb.
  split; [exact Ht|]. split; [exact Hb|].
  apply orb_prop in Hk as [Hk|Hk].
  - left. now apply Z.eqb_eq.
  - right. apply andb_prop in Hk as [Hk Hc]. apply andb_prop in Hk as [Hd Hk].
    apply Z.eqb_eq in Hd, Hk, Hc. repeat split; auto.
    destruct (kernel_metric g); try discriminate Hc. reflexivity.
Qed.

Lemma resolved_symbol_matches_request_witness :
  metric_output (simsimd_find_metric_punned build_arm_linux
                   simsimd_metric_jaccard_k simsimd_datatype_b8_k
                   simsimd_cap_any_k simsimd_cap_any_k cleared)
    = Some simsimd_jaccard_b8_sve /\
  type_code (kernel_type simsimd_jaccard_b8_sve) = simsimd_datatype_b8_k /\
  backend_cap (kernel_backend simsimd_jaccard_b8_sve)
    = capability_output
        (simsimd_find_metric_punned build_arm_linux simsimd_metric_jaccard_k
           simsimd_datatype_b8_k simsimd_cap_any_k simsimd_cap_any_k cleared) /\
  (metric_code (kernel_metric simsimd_jaccard_b8_sve) = simsimd_metric_jaccard_k \/
   (simsimd_datatype_b8_k = simsimd_datatype_i8_k /\
    simsimd_metric_jaccard_k = simsimd_metric_dot_k /\
    kernel_metric simsimd_jaccard_b8_sve = cos)).
Proof.
  assert (H : metric_output
                (simsimd_find_metric_punned build_arm_linux
                   simsimd_metric_jaccard_k simsimd_datatype_b8_k
                   simsimd_cap_any_k simsimd_cap_any_k cleared)
              = Some simsimd_jaccard_b8_sve) by reflexivity.
  split; [exact H|].
  exact (resolved_symbol_matches_request build_arm_linux _ _ _ _ cleared _ H).
Defined.

(** X5: a tier whose macro is off is never selected, whatever the masks say:
    the backend of a resolved kernel is one the build compiles. *)
Theorem resolved_backend_is_compiled T kind dt supported allowed out f :
  metric_output (simsimd_find_metric_punned T kind dt supported allowed out)
    = Some f ->
  backend_compiled T (kernel_backend f) = true.
Proof.
  intros Hf.
  destruct (find_metric_result T kind dt supported allowed out)
    as [[Hm _]|(g & Hm & Hin & _)]; rewrite Hm in Hf; [discriminate|].
  injection Hf as <-.
  pose proof (catalog_entry_named _ _ Hin) as Hn. unfold well_named in Hn.
  cbn [entry_point] in Hn.
  apply andb_prop in Hn as [Hn _]. apply andb_prop in Hn as [_ Hc]. exact Hc.
Qed.

Lemma resolved_backend_is_compiled_witness :
  metric_output (simsimd_find_metric_punned build_portable
                   simsimd_metric_cos_k simsimd_datatype_f32_k
                   simsimd_cap_any_k simsimd_cap_any_k cleared)
    = Some simsimd_cos_f32_serial /\
  backend_compiled build_portable (kernel_backend simsimd_cos_f32_serial) = true.
Proof.
  assert (H : metric_output
                (simsimd_find_metric_punned build_portable
                   simsimd_metric_cos_k simsimd_datatype_f32_k
                   simsimd_cap_any_k simsimd_cap_any_k cleared)
              = Some simsimd_cos_f32_serial) by reflexivity.
  split; [exact H|].
  exact (resolved_backend_is_compiled build_portable _ _ _ _ cleared _ H).
Defined.

(** ** Which tier wins *)

Lemma fires_compiled viable kind b :
  fires viable kind b = true -> compiled b = true.
Proof.
  unfold fires. intros H. apply andb_prop in H as [H _].
  now apply andb_prop in H as [H _].
Qed.

(** When a block of a cascade fires, the cascade returns from that block or
    from an earlier one. *)
Lemma run_blocks_earliest viable kind bs b :
  In b bs -> fires viable kind b = true ->
  distinct_nonzero (map tier (filter compiled bs)) = true ->
  (position (capability_output (finish (run_blocks viable kind bs cleared)))
            (map tier (filter compiled bs))
   <= position (tier b) (map tier (filter compiled bs)))%nat.
Proof.
  intros Hin Hb. induction bs as [|b0 bs IH]; [contradiction|].
  cbn [filter run_blocks]. destruct (fires viable kind b0) eqn:F0.
  - pose proof (fires_compiled _ _ _ F0) as Hc0. rewrite Hc0. cbn [map].
    destruct (run_block_fires _ _ _ cleared F0) as (f & _ & ->). intros _.
    cbn [finish capability_output position]. rewrite Z.eqb_refl. apply Nat.le_0_l.
  - rewrite (run_block_skips _ _ _ _ F0).
    destruct Hin as [->|Hin]; [congruence|].
    destruct (compiled b0) eqn:Hc0; [|now apply IH].
    cbn [map]. intros Hd.
    apply distinct_nonzero_cons in Hd as (H0 & Hnotin & Hd).
    assert (Hb' : In (tier b) (map tier (filter compiled bs))).
    { apply in_map. apply filter_In. split; [exact Hin|].
      exact (fires_compiled _ _ _ Hb). }
    assert (Hne : capability_output
                    (finish (run_blocks viable kind bs cleared)) <> tier b0).
    { intros E.
      destruct (run_blocks_capability viable kind bs cleared) as [Hz|Hc].
      - apply H0. rewrite <- E, Hz. reflexivity.
      - apply Hnotin. rewrite <- E. exact Hc. }
    rewrite !position_cons_neq; [|intros E; apply Hnotin; now rewrite <- E|exact Hne].
    apply le_n_S. now apply IH.
Qed.

Lemma tier_registers_block T t kind dt viable :
  tier_registers T t kind dt -> Z.land viable t <> 0 ->
  exists b, In b (case_body dt (datatype_cases T)) /\ tier b = t /\
            fires viable kind b = true.
Proof.
  intros (f & Hin) Hv. apply catalog_spec in Hin as (b & Hb & Hc & Ht & Hkf).
  cbn [entry_datatype entry_tier entry_kind entry_point] in *.
  exists b. split; [exact Hb|]. split; [exact Ht|].
  unfold fires. rewrite Hc, Ht.
  apply Z.eqb_neq in Hv. rewrite Hv.
  destruct (In_switch_kind _ _ _ Hkf) as (g & ->). reflexivity.
Qed.

(** X6: if some tier is viable and registers the requested pair, the
    resolver writes a non-null entry point, and the tier it writes stands no
    later in the datatype's tier order than that tier: the first viable tier
    that has the kind wins. *)
Theorem earliest_viable_tier_wins T kind dt supported allowed out t :
  tier_registers T t kind dt ->
  Z.land (Z.land supported allowed) t <> 0 ->
  metric_output (simsimd_find_metric_punned T kind dt supported allowed out)
    <> null /\
  (priority_rank T dt
     (capability_output
        (simsimd_find_metric_punned T kind dt supported allowed out))
   <= priority_rank T dt t)%nat.
Proof.
  intros Hreg Hv. split.
  - apply find_metric_some_fires. now apply (tier_registers_fires _ _ _ _ _ Hreg).
  - destruct (tier_registers_block _ _ _ _ _ Hreg Hv) as (b & Hb & <- & Hf).
    rewrite find_metric_own_case. unfold priority_rank, tier_order.
    apply run_blocks_earliest; auto. apply (tier_order_distinct T dt).
Qed.

Lemma neon_registers_cos_f16 :
  tier_registers build_arm_linux simsimd_cap_neon_k simsimd_metric_cos_k
    simsimd_datatype_f16_k.
Proof.
  exists simsimd_cos_f16_neon. vm_compute.
  repeat first [left; reflexivity | right].
Qed.

Lemma earliest_viable_tier_wins_witness :
  tier_registers build_arm_linux simsimd_cap_neon_k simsimd_metric_cos_k
    simsimd_datatype_f16_k /\
  Z.land (Z.land simsimd_cap_any_k simsimd_cap_any_k) simsimd_cap_neon_k <> 0 /\
  metric_output (simsimd_find_metric_punned build_arm_linux simsimd_metric_cos_k
                   simsimd_datatype_f16_k simsimd_cap_any_k simsimd_cap_any_k
                   cleared) <> null /\
  (priority_rank build_arm_linux simsimd_datatype_f16_k
     (capability_output
        (simsimd_find_metric_punned build_arm_linux simsimd_metric_cos_k
           simsimd_datatype_f16_k simsimd_cap_any_k simsimd_cap_any_k cleared))
   <= priority_rank build_arm_linux simsimd_datatype_f16_k simsimd_cap_neon_k)%nat.
Proof.
  assert (Hv : Z.land (Z.land simsimd_cap_any_k simsimd_cap_any_k)
                      simsimd_cap_neon_k <> 0) by (vm_compute; discriminate).
  split; [exact neon_registers_cos_f16|]. split; [exact Hv|].
  exact (earliest_viable_tier_wins build_arm_linux _ _ _ _ cleared _
           neon_registers_cos_f16 Hv).
Defined.

(** Every case of a datatype is also a case of its serial tier. *)
Lemma baseline_registers_all T kind dt :
  registered_somewhere T kind dt ->
  tier_registers T simsimd_cap_serial_k kind dt.
Proof.
  intros (t & f & Hin). apply catalog_spec in Hin as (b & Hb & _ & _ & Hkf).
  cbn [entry_datatype entry_kind entry_point] in *.
  pose proof (case_body_baseline_complete T dt) as Hc.
  unfold baseline_complete in Hc. rewrite forallb_forall in Hc.
  specialize (Hc b Hb). apply existsb_exists in Hc as (b' & Hb' & Hc).
  apply andb_prop in Hc as [Hc Hks]. apply andb_prop in Hc as [Hc Ht].
  apply Z.eqb_eq in Ht. rewrite forallb_forall in Hks.
  assert (Hk : In kind (map fst (cases b)))
    by (apply in_map_iff; exists (kind, f); auto).
  destruct (switch_kind_has _ _ (Hks kind Hk)) as (g & Hg).
  exists g. apply catalog_spec. exists b'.
  cbn [entry_datatype entry_tier entry_kind entry_point].
  auto using switch_kind_In.
Qed.

(** X7: when the serial bit is viable, resolution succeeds exactly for the
    pairs the catalog registers: the outcome then depends on the pair alone,
    not on the other bits of the masks. *)
Theorem serial_viable_resolves_iff_registered T kind dt supported allowed out :
  Z.land (Z.land supported allowed) simsimd_cap_serial_k <> 0 ->
  (metric_output (simsimd_find_metric_punned T kind dt supported allowed out)
     <> null
   <-> registered_somewhere T kind dt).
Proof.
  intros Hs. split.
  - intros H.
    destruct (find_metric_result T kind dt supported allowed out)
      as [[Hm _]|(f & _ & Hin & _)]; [contradiction|].
    eexists. exists f. exact Hin.
  - intros H. apply find_metric_some_fires.
    apply (tier_registers_fires _ _ _ _ _ (baseline_registers_all _ _ _ H) Hs).
Qed.

Lemma serial_viable_resolves_iff_registered_witness :
  Z.land (Z.land simsimd_cap_any_k simsimd_cap_any_k) simsimd_cap_serial_k <> 0 /\
  (metric_output (simsimd_find_metric_punned build_arm_linux
                    simsimd_metric_jaccard_k simsimd_datatype_f32_k
                    simsimd_cap_any_k simsimd_cap_any_k cleared) <> null
   <-> registered_somewhere build_arm_linux simsimd_metric_jaccard_k
         simsimd_datatype_f32_k).
Proof.
  assert (Hs : Z.land (Z.land simsimd_cap_any_k simsimd_cap_any_k)
                      simsimd_cap_serial_k <> 0) by (vm_compute; discriminate).
  split; [exact Hs|].
  exact (serial_viable_resolves_iff_registered build_arm_linux _ _ _ _ cleared Hs).
Defined.

(** ** Requests outside the catalog *)

(** X8: a value of the kind that is none of the eight metric kinds, such as
    [simsimd_metric_unknown_k], resolves to nothing for every datatype and
    all masks. *)
Theorem unknown_kind_is_null T kind dt supported allowed out :
  ~ In kind metric_kinds ->
  simsimd_find_metric_punned T kind dt supported allowed out =
    {| metric_output := null; capability_output := 0 |}.
Proof.
  intros Hk.
  destruct (find_metric_spec T kind dt supported allowed out)
    as [E|(f & _ & Hin & _)]; [exact E|].
  exfalso. apply Hk.
  pose proof (catalog_entry_keyed _ _ Hin) as H. unfold well_keyed in H.
  cbn [entry_kind] in H.
  do 2 (apply andb_prop in H as [H _]). apply andb_prop in H as [_ H].
  apply existsb_exists in H as (k & Hin' & E). apply Z.eqb_eq in E. now subst.
Qed.

Lemma unknown_kind_is_null_witness :
  ~ In simsimd_metric_unknown_k metric_kinds /\
  simsimd_find_metric_punned build_x86 simsimd_metric_unknown_k
    simsimd_datatype_f32_k simsimd_cap_any_k simsimd_cap_any_k cleared =
    {| metric_output := null; capability_output := 0 |}.
Proof.
  assert (H : ~ In simsimd_metric_unknown_k metric_kinds).
  { intros H. vm_compute in H.
    repeat (destruct H as [H|H]; [discriminate H|]). exact H. }
  split; [exact H|].
  exact (unknown_kind_is_null build_x86 _ simsimd_datatype_f32_k
           simsimd_cap_any_k simsimd_cap_any_k cleared H).
Defined.

(** X9: a datatype value below [simsimd_datatype_f64_k] or above
    [simsimd_datatype_f16c_k], in particular any integer outside the
    enumeration, resolves to nothing: the switch has no [default]. *)
Theorem datatype_out_of_range_is_null T kind dt supported allowed out :
  dt < simsimd_datatype_f64_k \/ simsimd_datatype_f16c_k < dt ->
  simsimd_find_metric_punned T kind dt supported allowed out =
    {| metric_output := null; capability_output := 0 |}.
Proof.
  intros Hdt.
  destruct (find_metric_spec T kind dt supported allowed out)
    as [E|(f & _ & Hin & _)]; [exact E|].
  exfalso.
  pose proof (catalog_entry_keyed _ _ Hin) as H. unfold well_keyed in H.
  cbn [entry_datatype] in H.
  apply andb_prop in H as [H Hhi]. apply andb_prop in H as [_ Hlo].
  apply Z.leb_le in Hlo, Hhi.
  destruct Hdt as [Hdt|Hdt].
  - exact (proj1 (Z.lt_nge _ _) Hdt Hlo).
  - exact (proj1 (Z.lt_nge _ _) Hdt Hhi).
Qed.

Lemma datatype_out_of_range_is_null_witness :
  (42 < simsimd_datatype_f64_k \/ simsimd_datatype_f16c_k < 42) /\
  simsimd_find_metric_punned build_x86 simsimd_metric_dot_k 42
    simsimd_cap_any_k simsimd_cap_any_k cleared =
    {| metric_output := null; capability_output := 0 |}.
Proof.
  assert (H : 42 < simsimd_datatype_f64_k \/ simsimd_datatype_f16c_k < 42)
    by (right; reflexivity).
  split; [exact H|].
  exact (datatype_out_of_range_is_null build_x86 simsimd_metric_dot_k 42
           simsimd_cap_any_k simsimd_cap_any_k cleared H).
Defined.

(** X10: when the supported and the allowed masks share no bit, nothing is
    resolved, whatever the kind and the datatype. *)
Theorem disjoint_masks_are_null T kind dt supported allowed out :
  Z.land supported allowed = 0 ->
  simsimd_find_metric_punned T kind dt supported allowed out =
    {| metric_output := null; capability_output := 0 |}.
Proof.
  intros Hv.
  destruct (find_metric_spec T kind dt supported allowed out)
    as [E|(f & _ & _ & H)]; [exact E|].
  rewrite Hv in H. now elim H.
Qed.

Lemma disjoint_masks_are_null_witness :
  Z.land (Z.lor simsimd_cap_neon_k simsimd_cap_serial_k) simsimd_cap_sve_k = 0 /\
  simsimd_find_metric_punned build_arm_linux simsimd_metric_dot_k
    simsimd_datatype_f32_k (Z.lor simsimd_cap_neon_k simsimd_cap_serial_k)
    simsimd_cap_sve_k cleared =
    {| metric_output := null; capability_output := 0 |}.
Proof.
  assert (H : Z.land (Z.lor simsimd_cap_neon_k simsimd_cap_serial_k)
                     simsimd_cap_sve_k = 0) by reflexivity.
  split; [exact H|].
  exact (disjoint_masks_are_null build_arm_linux simsimd_metric_dot_k
           simsimd_datatype_f32_k _ _ cleared H).
Defined.

(** ** Bits the resolver does not look at *)

Lemma run_blocks_viable_ext v1 v2 kind bs o :
  (forall b, In b bs ->
     (Z.land v1 (tier b) =? 0) = (Z.land v2 (tier b) =? 0)) ->
  run_blocks v1 kind bs o = run_blocks v2 kind bs o.
Proof.
  revert o. induction bs as [|b bs IH]; intros o H; [reflexivity|].
  cbn [run_blocks]. unfold run_block. rewrite (H b (or_introl eq_refl)).
  destruct (compiled b && negb (Z.land v2 (tier b) =? 0));
    [destruct (switch_kind kind (cases b))|]; auto using in_cons.
Qed.

Lemma case_body_tests_dispatch_tiers T dt :
  forallb tests_dispatch_tier (case_body dt (datatype_cases T)) = true.
Proof. each_datatype dt; reflexivity. Qed.

(** X11: only the bits of the seven dispatch tiers of the supported mask
    matter: any other bit, such as the SVE2 bit the probe can report, has no
    influence on the resolution. *)
Theorem other_bits_are_ignored T kind dt supported allowed out :
  simsimd_find_metric_punned T kind dt supported allowed out =
  simsimd_find_metric_punned T kind dt (Z.land supported dispatch_tiers)
    allowed out.
Proof.
  rewrite !find_metric_own_case. apply f_equal. apply run_blocks_viable_ext.
  intros b Hb.
  pose proof (case_body_tests_dispatch_tiers T dt) as H.
  rewrite forallb_forall in H. specialize (H b Hb).
  unfold tests_dispatch_tier in H. apply Z.eqb_eq in H.
  apply f_equal2; [|reflexivity].
  rewrite <- H at 1.
  rewrite <- (Z.land_assoc supported dispatch_tiers allowed).
  rewrite (Z.land_comm dispatch_tiers allowed).
  rewrite (Z.land_assoc supported allowed dispatch_tiers).
  rewrite <- (Z.land_assoc (Z.land supported allowed) dispatch_tiers (tier b)).
  rewrite (Z.land_comm dispatch_tiers (tier b)). reflexivity.
Qed.

(** ** The order of the x86 tiers for complex vectors *)

Lemma run_blocks_not_viable viable kind g t cs bs o :
  Z.land viable t = 0 ->
  run_blocks viable kind ({| compiled := g; tier := t; cases := cs |} :: bs) o
  = run_blocks viable kind bs o.
Proof.
  intros H. cbn [run_blocks]. unfold run_block. cbn [compiled tier cases].
  rewrite H. cbn [Z.eqb negb]. rewrite andb_false_r. reflexivity.
Qed.

(** X12: for the complex datatypes f32c and f16c the Haswell tier is
    examined before the AVX-512 tiers: in a build that compiles it, when no
    Arm tier is viable and the Haswell bit is, dot and vdot resolve to the
    Haswell kernels even if the Skylake or Sapphire bit is viable too. *)
Theorem complex_prefers_haswell T kind supported allowed out :
  SIMSIMD_TARGET_HASWELL T = true ->
  kind = simsimd_metric_dot_k \/ kind = simsimd_metric_vdot_k ->
  Z.land (Z.land supported allowed) simsimd_cap_sve_k = 0 ->
  Z.land (Z.land supported allowed) simsimd_cap_neon_k = 0 ->
  Z.land (Z.land supported allowed) simsimd_cap_haswell_k <> 0 ->
  capability_output
    (simsimd_find_metric_punned T kind simsimd_datatype_f32c_k
       supported allowed out) = simsimd_cap_haswell_k /\
  capability_output
    (simsimd_find_metric_punned T kind simsimd_datatype_f16c_k
       supported allowed out) = simsimd_cap_haswell_k.
Proof.
  intros HH Hk Hsve Hneon Hhas. apply Z.eqb_neq in Hhas.
  rewrite !find_metric_own_case.
  change (case_body simsimd_datatype_f32c_k (datatype_cases T))
    with (case_f32c T).
  change (case_body simsimd_datatype_f16c_k (datatype_cases T))
    with (case_f16c T).
  unfold case_f32c, case_f16c.
  rewrite !(run_blocks_not_viable _ _ _ _ _ _ _ Hsve).
  rewrite !(run_blocks_not_viable _ _ _ _ _ _ _ Hneon).
  cbn [run_blocks]. unfold run_block. cbn [compiled tier cases].
  rewrite HH, Hhas. destruct Hk as [->| ->]; split; reflexivity.
Qed.

Lemma complex_prefers_haswell_witness :
  SIMSIMD_TARGET_HASWELL build_x86 = true /\
  (simsimd_metric_dot_k = simsimd_metric_dot_k \/
   simsimd_metric_dot_k = simsimd_metric_vdot_k) /\
  Z.land (Z.land x86_tiers simsimd_cap_any_k) simsimd_cap_sve_k = 0 /\
  Z.land (Z.land x86_tiers simsimd_cap_any_k) simsimd_cap_neon_k = 0 /\
  Z.land (Z.land x86_tiers simsimd_cap_any_k) simsimd_cap_haswell_k <> 0 /\
  capability_output
    (simsimd_find_metric_punned build_x86 simsimd_metric_dot_k
       simsimd_datatype_f32c_k x86_tiers simsimd_cap_any_k cleared)
    = simsimd_cap_haswell_k /\
  capability_output
    (simsimd_find_metric_punned build_x86 simsimd_metric_dot_k
       simsimd_datatype_f16c_k x86_tiers simsimd_cap_any_k cleared)
    = simsimd_cap_haswell_k.
Proof.
  assert (H1 : SIMSIMD_TARGET_HASWELL build_x86 = true) by reflexivity.
  assert (H2 : simsimd_metric_dot_k = simsimd_metric_dot_k \/
               simsimd_metric_dot_k = simsimd_metric_vdot_k)
    by (left; reflexivity).
  assert (H3 : Z.land (Z.land x86_tiers simsimd_cap_any_k) simsimd_cap_sve_k = 0)
    by reflexivity.
  assert (H4 : Z.land (Z.land x86_tiers simsimd_cap_any_k) simsimd_cap_neon_k = 0)
    by reflexivity.
  assert (H5 : Z.land (Z.land x86_tiers simsimd_cap_any_k) simsimd_cap_haswell_k
               <> 0) by (vm_compute; discriminate).
  split; [exact H1|]. split; [exact H2|]. split; [exact H3|].
  split; [exact H4|]. split; [exact H5|].
  exact (complex_prefers_haswell build_x86 _ _ _ cleared H1 H2 H3 H4 H5).
Defined.

(** ** What the probe reports *)

Lemma ne0_land_bit r m n :
  m = 2 ^ n -> 0 <= n -> ne0 (Z.land r m) = Z.b2z (Z.testbit r n).
Proof.
  intros -> Hn. rewrite land_pow2 by exact Hn. unfold ne0.
  destruct (Z.testbit r n); [|reflexivity].
  assert (H : 2 ^ n <> 0) by (apply Z.pow_nonzero; [discriminate | exact Hn]).
  apply Z.eqb_neq in H. now rewrite H.
Qed.

Ltac feature_bits :=
  repeat match goal with
         | |- context [Z.testbit ?r ?n] => destruct (Z.testbit r n)
         end.

(** X13: in an x86 build each tier bit of the probe is set exactly when all
    the [cpuid] feature bits the code reads for it are set (Haswell: AVX2,
    F16C and FMA; Skylake: AVX512F; Ice Lake: five bits; Sapphire Rapids:
    AVX512FP16), and no Arm bit is ever set. *)
Theorem x86_tiers_from_features T h :
  SIMSIMD_TARGET_X86 T = true ->
  let caps := simsimd_capabilities T h in
  let c1 := ecx (cpuid_1 h) in
  let b7 := ebx (cpuid_7 h) in
  let d7 := edx (cpuid_7 h) in
  Z.land caps simsimd_cap_haswell_k =
    (if Z.testbit b7 5 && Z.testbit c1 29 && Z.testbit c1 12
     then simsimd_cap_haswell_k else 0) /\
  Z.land caps simsimd_cap_skylake_k =
    (if Z.testbit b7 16 then simsimd_cap_skylake_k else 0) /\
  Z.land caps simsimd_cap_ice_k =
    (if Z.testbit c1 11 && Z.testbit b7 21 && Z.testbit c1 12
        && Z.testbit c1 6 && Z.testbit c1 14
     then simsimd_cap_ice_k else 0) /\
  Z.land caps simsimd_cap_sapphire_k =
    (if Z.testbit d7 23 then simsimd_cap_sapphire_k else 0) /\
  Z.land caps arm_tiers = 0.
Proof.
  intros Hx. cbv zeta. unfold simsimd_capabilities. rewrite Hx.
  unfold capabilities_x86. cbv zeta.
  rewrite (ne0_land_bit (ebx (cpuid_7 h)) 0x00000020 5 eq_refl) by discriminate.
  rewrite (ne0_land_bit (ecx (cpuid_1 h)) 0x20000000 29 eq_refl) by discriminate.
  rewrite (ne0_land_bit (ecx (cpuid_1 h)) 0x00001000 12 eq_refl) by discriminate.
  rewrite (ne0_land_bit (ebx (cpuid_7 h)) 0x00010000 16 eq_refl) by discriminate.
  rewrite (ne0_land_bit (ebx (cpuid_7 h)) 0x00200000 21 eq_refl) by discriminate.
  rewrite (ne0_land_bit (edx (cpuid_7 h)) 0x00800000 23 eq_refl) by discriminate.
  rewrite (ne0_land_bit (ecx (cpuid_1 h)) 0x00004000 14 eq_refl) by discriminate.
  rewrite (ne0_land_bit (ecx (cpuid_1 h)) 0x00000040 6 eq_refl) by discriminate.
  rewrite (ne0_land_bit (ecx (cpuid_1 h)) 0x00000800 11 eq_refl) by discriminate.
  feature_bits; repeat split; reflexivity.
Qed.

Lemma x86_tiers_from_features_witness :
  SIMSIMD_TARGET_X86 build_x86 = true /\
  Z.land (simsimd_capabilities build_x86 plain_host) simsimd_cap_haswell_k = 0.
Proof.
  split; [reflexivity|].
  exact (proj1 (x86_tiers_from_features build_x86 plain_host eq_refl)).
Defined.

(** X14: in an Arm build the NEON bit is always reported, the SVE and SVE2
    bits only under Linux and only when the auxiliary vector has the
    [HWCAP_SVE], respectively [HWCAP2_SVE2], bit, and no x86 bit is ever
    set. *)
Theorem arm_tiers_from_hwcap T h :
  SIMSIMD_TARGET_X86 T = false -> SIMSIMD_TARGET_ARM T = true ->
  let caps := simsimd_capabilities T h in
  Z.land caps simsimd_cap_neon_k = simsimd_cap_neon_k /\
  Z.land caps simsimd_cap_sve_k =
    (if __linux__ T
        && negb (Z.land (getauxval_AT_HWCAP h) (HWCAP_SVE T) =? 0)
     then simsimd_cap_sve_k else 0) /\
  Z.land caps simsimd_cap_sve2_k =
    (if __linux__ T
        && negb (Z.land (getauxval_AT_HWCAP2 h) (HWCAP2_SVE2 T) =? 0)
     then simsimd_cap_sve2_k else 0) /\
  Z.land caps x86_tiers = 0.
Proof.
  intros Hx Ha. cbv zeta. unfold simsimd_capabilities. rewrite Hx, Ha.
  unfold capabilities_arm. cbv zeta. unfold ne0.
  destruct (__linux__ T); each_feature; repeat split; reflexivity.
Qed.

Lemma arm_tiers_from_hwcap_witness :
  SIMSIMD_TARGET_X86 build_arm_linux = false /\
  SIMSIMD_TARGET_ARM build_arm_linux = true /\
  Z.land (simsimd_capabilities build_arm_linux plain_host) simsimd_cap_neon_k
    = simsimd_cap_neon_k.
Proof.
  split; [reflexivity|]. split; [reflexivity|].
  exact (proj1 (arm_tiers_from_hwcap build_arm_linux plain_host eq_refl eq_refl)).
Defined.

Lemma capabilities_serial_bit T h :
  Z.land (simsimd_capabilities T h) simsimd_cap_serial_k = simsimd_cap_serial_k.
Proof.
  unfold simsimd_capabilities.
  destruct (SIMSIMD_TARGET_X86 T); [|destruct (SIMSIMD_TARGET_ARM T)].
  - apply capabilities_x86_shape.
  - apply capabilities_arm_shape.
  - reflexivity.
Qed.

Lemma subset_of_bits a b c :
  Z.land a b = a -> Z.land b c = b -> Z.land a c = a.
Proof.
  intros Hab Hbc. rewrite <- Hab at 1.
  rewrite <- Z.land_assoc, Hbc. exact Hab.
Qed.

(** X15: the probe's result lies within [simsimd_cap_any_k] and within the
    bits of the serial and advanced tiers: passing [simsimd_cap_any_k] as
    the allowed mask hides nothing the probe reports. *)
Theorem capabilities_within_any T h :
  let caps := simsimd_capabilities T h in
  Z.land caps simsimd_cap_any_k = caps /\
  Z.land caps (Z.lor simsimd_cap_serial_k advanced_tiers) = caps.
Proof.
  cbv zeta. unfold simsimd_capabilities.
  destruct (SIMSIMD_TARGET_X86 T); [|destruct (SIMSIMD_TARGET_ARM T)].
  - unfold capabilities_x86. cbv zeta. unfold ne0, land_c.
    each_feature; split; reflexivity.
  - unfold capabilities_arm. cbv zeta. unfold ne0.
    destruct (__linux__ T); each_feature; split; reflexivity.
  - split; reflexivity.
Qed.

(** ** The convenience form on any host *)

Lemma viable_within_serial T kind dt supported allowed out f :
  Z.land (Z.land supported allowed) simsimd_cap_serial_k
    = Z.land supported allowed ->
  metric_output (simsimd_find_metric_punned T kind dt supported allowed out)
    = Some f ->
  kernel_backend f = serial.
Proof.
  intros Hs Hf.
  destruct (find_metric_result T kind dt supported allowed out)
    as [[Hm _]|(g & Hm & Hin & Hv & Hc)]; rewrite Hm in Hf; [discriminate|].
  injection Hf as <-.
  pose proof (catalog_entry_named _ _ Hin) as Hn. unfold well_named in Hn.
  cbn [entry_tier entry_point] in Hn.
  do 2 (apply andb_prop in Hn as [Hn _]). apply Z.eqb_eq in Hn.
  rewrite <- Hs, <- Z.land_assoc, <- Hn in Hv.
  rewrite <- Hn in Hc.
  destruct (kernel_backend g); try reflexivity;
    cbn in Hv; rewrite Z.land_0_r in Hv; discriminate Hv.
Qed.

(** X16: on every host, [simsimd_metric_punned] with
    [simsimd_cap_any_k] returns a non-null entry point for every pair the
    catalog registers. *)
Theorem metric_punned_any_resolves T h kind dt :
  registered_somewhere T kind dt ->
  simsimd_metric_punned T h kind dt simsimd_cap_any_k <> null.
Proof.
  intros H. unfold simsimd_metric_punned. cbv zeta.
  apply find_metric_some_fires.
  apply (tier_registers_fires _ _ _ _ _ (baseline_registers_all _ _ _ H)).
  rewrite <- Z.land_assoc.
  change (Z.land simsimd_cap_any_k simsimd_cap_serial_k)
    with simsimd_cap_serial_k.
  rewrite capabilities_serial_bit. discriminate.
Qed.

Lemma metric_punned_any_resolves_witness :
  registered_somewhere build_arm_linux simsimd_metric_cos_k
    simsimd_datatype_f16_k /\
  simsimd_metric_punned build_arm_linux plain_host simsimd_metric_cos_k
    simsimd_datatype_f16_k simsimd_cap_any_k <> null.
Proof.
  assert (H : registered_somewhere build_arm_linux simsimd_metric_cos_k
                simsimd_datatype_f16_k)
    by (exists simsimd_cap_neon_k; exact neon_registers_cos_f16).
  split; [exact H|].
  exact (metric_punned_any_resolves build_arm_linux plain_host _ _ H).
Defined.

(** X17: on every host, [simsimd_metric_punned] with the allowed mask
    restricted to the serial bit returns a serial kernel for every pair the
    serial tier registers: forcing the baseline works whatever the CPU. *)
Theorem metric_punned_serial_resolves T h kind dt :
  tier_registers T simsimd_cap_serial_k kind dt ->
  exists f, simsimd_metric_punned T h kind dt simsimd_cap_serial_k = Some f /\
            kernel_backend f = serial.
Proof.
  intros H. unfold simsimd_metric_punned. cbv zeta.
  assert (Hv : Z.land (simsimd_capabilities T h) simsimd_cap_serial_k
               = simsimd_cap_serial_k) by apply capabilities_serial_bit.
  pose proof (find_metric_some_fires T kind dt (simsimd_capabilities T h)
                simsimd_cap_serial_k
                {| metric_output := null;
                   capability_output := simsimd_cap_serial_k |}) as Hnn.
  destruct (metric_output _) as [f|] eqn:Hf.
  - exists f. split; [reflexivity|].
    refine (viable_within_serial _ _ _ _ _ _ _ _ Hf).
    rewrite <- Z.land_assoc. reflexivity.
  - exfalso. apply Hnn; [|reflexivity].
    apply (tier_registers_fires _ _ _ _ _ H). rewrite Hv. discriminate.
Qed.

Lemma metric_punned_serial_resolves_witness :
  tier_registers build_x86 simsimd_cap_serial_k simsimd_metric_dot_k
    simsimd_datatype_f32_k /\
  exists f, simsimd_metric_punned build_x86 plain_host simsimd_metric_dot_k
              simsimd_datatype_f32_k simsimd_cap_serial_k = Some f /\
            kernel_backend f = serial.
Proof.
  split; [apply serial_registers_dot_f32|].
  exact (metric_punned_serial_resolves build_x86 plain_host _ _
           (serial_registers_dot_f32 build_x86)).
Defined.

(** X18: in a build for neither x86 nor Arm, [simsimd_metric_punned] only
    ever returns serial kernels, whatever the allowed mask and whichever
    tier macros are on. *)
Theorem metric_punned_portable_is_serial T h kind dt allowed f :
  SIMSIMD_TARGET_X86 T = false -> SIMSIMD_TARGET_ARM T = false ->
  simsimd_metric_punned T h kind dt allowed = Some f ->
  kernel_backend f = serial.
Proof.
  intros Hx Ha. unfold simsimd_metric_punned. cbv zeta.
  unfold simsimd_capabilities. rewrite Hx, Ha.
  apply viable_within_serial.
  rewrite (Z.land_comm simsimd_cap_serial_k allowed), <- Z.land_assoc.
  reflexivity.
Qed.

Lemma metric_punned_portable_is_serial_witness :
  SIMSIMD_TARGET_X86 build_portable = false /\
  SIMSIMD_TARGET_ARM build_portable = false /\
  simsimd_metric_punned build_portable plain_host simsimd_metric_hamming_k
    simsimd_datatype_b8_k simsimd_cap_any_k = Some simsimd_hamming_b8_serial /\
  kernel_backend simsimd_hamming_b8_serial = serial.
Proof.
  assert (H : simsimd_metric_punned build_portable plain_host
                simsimd_metric_hamming_k simsimd_datatype_b8_k
                simsimd_cap_any_k = Some simsimd_hamming_b8_serial)
    by reflexivity.
  split; [reflexivity|]. split; [reflexivity|]. split; [exact H|].
  exact (metric_punned_portable_is_serial build_portable plain_host _ _ _ _
           eq_refl eq_refl H).
Defined.

(** ** Larger masks *)

Lemma mask_subset_viable_supported s1 s2 allowed t :
  mask_subset s1 s2 ->
  Z.land (Z.land s1 allowed) t <> 0 -> Z.land (Z.land s2 allowed) t <> 0.
Proof.
  rewrite (Z.land_comm s1 allowed), (Z.land_comm s2 allowed).
  apply mask_subset_viable.
Qed.

(** X19: monotonicity in the supported mask: for fixed kind, datatype and
    allowed mask, a machine that supports more tiers is never given a tier
    that stands later in the datatype's tier order. *)
Theorem supported_monotone T kind dt supported1 supported2 allowed out1 out2 :
  mask_subset supported1 supported2 ->
  (priority_rank T dt
     (capability_output
        (simsimd_find_metric_punned T kind dt supported2 allowed out2))
   <= priority_rank T dt
        (capability_output
           (simsimd_find_metric_punned T kind dt supported1 allowed out1)))%nat.
Proof.
  intros Hsub. rewrite !find_metric_own_case. unfold priority_rank, tier_order.
  apply run_blocks_monotone.
  - intros t. now apply mask_subset_viable_supported.
  - apply (tier_order_distinct T dt).
Qed.

Lemma supported_monotone_witness :
  mask_subset simsimd_cap_serial_k
    (Z.lor simsimd_cap_skylake_k simsimd_cap_serial_k) /\
  (priority_rank build_x86 simsimd_datatype_f64_k
     (capability_output
        (simsimd_find_metric_punned build_x86 simsimd_metric_l2sq_k
           simsimd_datatype_f64_k
           (Z.lor simsimd_cap_skylake_k simsimd_cap_serial_k)
           simsimd_cap_any_k cleared))
   <= priority_rank build_x86 simsimd_datatype_f64_k
        (capability_output
           (simsimd_find_metric_punned build_x86 simsimd_metric_l2sq_k
              simsimd_datatype_f64_k simsimd_cap_serial_k
              simsimd_cap_any_k cleared)))%nat.
Proof.
  assert (H : mask_subset simsimd_cap_serial_k
                (Z.lor simsimd_cap_skylake_k simsimd_cap_serial_k))
    by reflexivity.
  split; [exact H|].
  exact (supported_monotone build_x86 simsimd_metric_l2sq_k
           simsimd_datatype_f64_k _ _ simsimd_cap_any_k cleared cleared H).
Defined.

Lemma existsb_fires_monotone v1 v2 kind bs :
  (forall t, Z.land v1 t <> 0 -> Z.land v2 t <> 0) ->
  existsb (fires v1 kind) bs = true -> existsb (fires v2 kind) bs = true.
Proof.
  intros Hv H. apply existsb_exists in H as (b & Hb & Hf).
  apply existsb_exists. exists b. split; [exact Hb|].
  destruct (fires v2 kind b) eqn:F2; [reflexivity|].
  rewrite (fires_monotone _ _ _ _ Hv F2) in Hf. discriminate.
Qed.

Lemma find_metric_nonnull_fires T kind dt supported allowed out :
  metric_output (simsimd_find_metric_punned T kind dt supported allowed out)
    <> null ->
  existsb (fires (Z.land supported allowed) kind)
          (case_body dt (datatype_cases T)) = true.
Proof.
  rewrite find_metric_own_case. intros H.
  destruct (existsb _ _) eqn:E; [reflexivity|]. exfalso. apply H.
  rewrite run_blocks_none; [reflexivity|].
  apply forallb_forall. intros b Hb. apply negb_true_iff.
  destruct (fires _ kind b) eqn:F; [|reflexivity].
  assert (existsb (fires (Z.land supported allowed) kind)
            (case_body dt (datatype_cases T)) = true)
    by (apply existsb_exists; eauto).
  congruence.
Qed.

(** X20: enlarging the masks never loses a resolution: if a request
    resolves under some supported and allowed masks, it resolves under any
    masks that contain them. *)
Theorem larger_masks_keep_resolution T kind dt s1 s2 a1 a2 out1 out2 :
  mask_subset s1 s2 -> mask_subset a1 a2 ->
  metric_output (simsimd_find_metric_punned T kind dt s1 a1 out1) <> null ->
  metric_output (simsimd_find_metric_punned T kind dt s2 a2 out2) <> null.
Proof.
  intros Hs Ha H. apply find_metric_some_fires.
  apply find_metric_nonnull_fires in H.
  apply (existsb_fires_monotone (Z.land s1 a1)); [|exact H].
  intros t Ht. apply (mask_subset_viable _ _ _ _ Ha).
  now apply (mask_subset_viable_supported _ _ _ _ Hs).
Qed.

Lemma larger_masks_keep_resolution_witness :
  mask_subset simsimd_cap_serial_k simsimd_cap_any_k /\
  mask_subset simsimd_cap_serial_k simsimd_cap_any_k /\
  metric_output (simsimd_find_metric_punned build_x86 simsimd_metric_vdot_k
                   simsimd_datatype_f64c_k simsimd_cap_serial_k
                   simsimd_cap_serial_k cleared) <> null /\
  metric_output (simsimd_find_metric_punned build_x86 simsimd_metric_vdot_k
                   simsimd_datatype_f64c_k simsimd_cap_any_k
                   simsimd_cap_any_k cleared) <> null.
Proof.
  assert (Hs : mask_subset simsimd_cap_serial_k simsimd_cap_any_k)
    by reflexivity.
  assert (H : metric_output
                (simsimd_find_metric_punned build_x86 simsimd_metric_vdot_k
                   simsimd_datatype_f64c_k simsimd_cap_serial_k
                   simsimd_cap_serial_k cleared) <> null)
    by (vm_compute; discriminate).
  split; [exact Hs|]. split; [exact Hs|]. split; [exact H|].
  exact (larger_masks_keep_resolution build_x86 _ _ _ _ _ _ cleared cleared
           Hs Hs H).
Defined.

(** ** Builds *)

Lemma baseline_entries_same T : baseline_entries T = baseline_entries build_portable.
Proof. each_build T; vm_compute; reflexivity. Qed.

Lemma tier_registers_serial_any_build T1 T2 kind dt :
  tier_registers T1 simsimd_cap_serial_k kind dt ->
  tier_registers T2 simsimd_cap_serial_k kind dt.
Proof.
  intros (f & Hin). exists f.
  assert (H : In {| entry_datatype := dt; entry_tier := simsimd_cap_serial_k;
                    entry_kind := kind; entry_point := f |}
                 (baseline_entries T1))
    by (apply filter_In; split; [exact Hin | reflexivity]).
  rewrite baseline_entries_same, <- (baseline_entries_same T2) in H.
  now apply filter_In in H.
Qed.

(** X21: which (kind, datatype) pairs are registered does not depend on the
    build: a pair some tier registers in one build is registered, at least
    by the serial tier, in every other build. *)
Theorem support_is_build_independent T1 T2 kind dt :
  registered_somewhere T1 kind dt -> registered_somewhere T2 kind dt.
Proof.
  intros H. exists simsimd_cap_serial_k.
  apply (tier_registers_serial_any_build T1).
  now apply baseline_registers_all.
Qed.

Lemma support_is_build_independent_witness :
  registered_somewhere build_arm_linux simsimd_metric_cos_k
    simsimd_datatype_f16_k /\
  registered_somewhere build_x86 simsimd_metric_cos_k simsimd_datatype_f16_k.
Proof.
  assert (H : registered_somewhere build_arm_linux simsimd_metric_cos_k
                simsimd_datatype_f16_k)
    by (exists simsimd_cap_neon_k; exact neon_registers_cos_f16).
  split; [exact H|].
  exact (support_is_build_independent build_arm_linux build_x86 _ _ H).
Defined.

(** * Partial tiers, the probe and 8-bit integers, in full *)

(** ** A tier that lacks the kind is passed over *)

Lemma position_inj c t order :
  In t order -> position c order = position t order -> c = t.
Proof.
  induction order as [|x order IH]; [contradiction|].
  cbn [position]. intros Hin.
  destruct (Z.eqb_spec t x) as [->|Htx].
  - destruct (Z.eqb_spec c x) as [->|_]; [reflexivity | discriminate].
  - destruct Hin as [->|Hin]; [now elim Htx|].
    destruct (Z.eqb_spec c x) as [_|_]; [discriminate|].
    intros [= E]. auto.
Qed.

Lemma tier_registers_in_order T t kind dt :
  tier_registers T t kind dt -> In t (tier_order T dt).
Proof.
  intros (f & Hin). apply catalog_spec in Hin as (b & Hb & Hc & Ht & _).
  cbn [entry_datatype entry_tier] in *. rewrite <- Ht.
  unfold tier_order. apply in_map. apply filter_In. auto.
Qed.

Lemma first_registering_viable_tier T kind dt supported allowed out t :
  tier_registers T t kind dt ->
  Z.land (Z.land supported allowed) t <> 0 ->
  (forall t', (priority_rank T dt t' < priority_rank T dt t)%nat ->
     Z.land (Z.land supported allowed) t' <> 0 ->
     ~ tier_registers T t' kind dt) ->
  exists f,
    simsimd_find_metric_punned T kind dt supported allowed out =
      {| metric_output := Some f; capability_output := t |} /\
    In {| entry_datatype := dt; entry_tier := t;
          entry_kind := kind; entry_point := f |} (catalog T).
Proof.
  intros Hreg Hv Hearlier.
  assert (Hle : (priority_rank T dt
                   (capability_output
                      (simsimd_find_metric_punned T kind dt supported allowed out))
                 <= priority_rank T dt t)%nat).
  { destruct (tier_registers_block _ _ _ _ _ Hreg Hv) as (b & Hb & <- & Hf).
    rewrite find_metric_own_case. unfold priority_rank, tier_order.
    apply run_blocks_earliest; auto. apply (tier_order_distinct T dt). }
  destruct (find_metric_result T kind dt supported allowed out)
    as [[Hm _]|(f & Hm & Hin & Hvc & Hc0)].
  - exfalso.
    apply (find_metric_some_fires T kind dt supported allowed out); [|exact Hm].
    now apply (tier_registers_fires _ _ _ _ _ Hreg).
  - exists f.
    assert (E : capability_output
                  (simsimd_find_metric_punned T kind dt supported allowed out) = t).
    { apply Nat.le_lteq in Hle as [Hlt|Heq].
      - exfalso. apply (Hearlier _ Hlt).
        + rewrite Hvc. exact Hc0.
        + exists f. exact Hin.
      - apply (position_inj _ _ (tier_order T dt));
          [exact (tier_registers_in_order _ _ _ _ Hreg) | exact Heq]. }
    rewrite E in Hin. split; [|exact Hin].
    destruct (simsimd_find_metric_punned T kind dt supported allowed out)
      as [m c]. cbn [metric_output capability_output] in *. now subst.
Qed.

(** C6, as amended: a viable tier that has no case for the requested kind
    does not block the tiers after it.  In general: if tier [t] registers
    the pair and is viable, and every viable tier that stands before [t] in
    the datatype's order does not register the pair, the resolver writes the
    kernel that [t] registers and the capability [t].  For example, in a build
    that compiles the NEON tier, resolving js for f16 with the SVE and NEON
    bits both in [supported & allowed] writes the NEON js kernel and the NEON
    capability: the SVE block of f16 has only dot, cos and l2sq. *)
Theorem partial_tier_falls_back T :
  (forall kind dt supported allowed out t,
     tier_registers T t kind dt ->
     Z.land (Z.land supported allowed) t <> 0 ->
     (forall t', (priority_rank T dt t' < priority_rank T dt t)%nat ->
        Z.land (Z.land supported allowed) t' <> 0 ->
        ~ tier_registers T t' kind dt) ->
     exists f,
       simsimd_find_metric_punned T kind dt supported allowed out =
         {| metric_output := Some f; capability_output := t |} /\
       In {| entry_datatype := dt; entry_tier := t;
             entry_kind := kind; entry_point := f |} (catalog T))
  /\
  (SIMSIMD_TARGET_NEON T = true ->
   forall supported allowed out,
     Z.land (Z.land supported allowed) simsimd_cap_sve_k <> 0 ->
     Z.land (Z.land supported allowed) simsimd_cap_neon_k <> 0 ->
     simsimd_find_metric_punned T simsimd_metric_js_k simsimd_datatype_f16_k
       supported allowed out =
       {| metric_output := Some simsimd_js_f16_neon;
          capability_output := simsimd_cap_neon_k |}).
Proof.
  split.
  - intros kind dt supported allowed out t.
    apply first_registering_viable_tier.
  - intros HN supported allowed out Hsve Hneon.
    now apply js_f16_resolves_to_neon.
Qed.

Lemma neon_registers_kl_f16 :
  tier_registers build_arm_linux simsimd_cap_neon_k simsimd_metric_kl_k
    simsimd_datatype_f16_k.
Proof.
  exists simsimd_kl_f16_neon. vm_compute.
  repeat first [left; reflexivity | right].
Qed.

Lemma sve_lacks_kl_f16 t' :
  (priority_rank build_arm_linux simsimd_datatype_f16_k t'
   < priority_rank build_arm_linux simsimd_datatype_f16_k simsimd_cap_neon_k)%nat ->
  ~ tier_registers build_arm_linux t' simsimd_metric_kl_k simsimd_datatype_f16_k.
Proof.
  unfold priority_rank.
  change (tier_order build_arm_linux simsimd_datatype_f16_k)
    with [simsimd_cap_sve_k; simsimd_cap_neon_k; simsimd_cap_serial_k].
  cbn [position]. destruct (Z.eqb_spec t' simsimd_cap_sve_k) as [->|_].
  - intros _ (f & Hin). vm_compute in Hin.
    repeat (destruct Hin as [Hin|Hin]; [discriminate Hin|]). exact Hin.
  - change (simsimd_cap_neon_k =? simsimd_cap_sve_k) with false.
    change (simsimd_cap_neon_k =? simsimd_cap_neon_k) with true.
    cbn iota. intros H. apply Nat.succ_lt_mono in H. now apply Nat.nlt_0_r in H.
Qed.

Lemma partial_tier_falls_back_witness :
  (exists f,
     simsimd_find_metric_punned build_arm_linux simsimd_metric_kl_k
       simsimd_datatype_f16_k simsimd_cap_any_k simsimd_cap_any_k cleared =
       {| metric_output := Some f; capability_output := simsimd_cap_neon_k |} /\
     In {| entry_datatype := simsimd_datatype_f16_k;
           entry_tier := simsimd_cap_neon_k;
           entry_kind := simsimd_metric_kl_k; entry_point := f |}
        (catalog build_arm_linux))
  /\
  simsimd_find_metric_punned build_arm_linux simsimd_metric_js_k
    simsimd_datatype_f16_k simsimd_cap_any_k simsimd_cap_any_k cleared =
    {| metric_output := Some simsimd_js_f16_neon;
       capability_output := simsimd_cap_neon_k |}.
Proof.
  assert (Hsve : Z.land (Z.land simsimd_cap_any_k simsimd_cap_any_k)
                        simsimd_cap_sve_k <> 0) by (vm_compute; discriminate).
  assert (Hneon : Z.land (Z.land simsimd_cap_any_k simsimd_cap_any_k)
                         simsimd_cap_neon_k <> 0) by (vm_compute; discriminate).
  split.
  - exact (proj1 (partial_tier_falls_back build_arm_linux)
             simsimd_metric_kl_k simsimd_datatype_f16_k
             simsimd_cap_any_k simsimd_cap_any_k cleared simsimd_cap_neon_k
             neon_registers_kl_f16 Hneon
             (fun t' Hlt _ => sve_lacks_kl_f16 t' Hlt)).
  - exact (proj2 (partial_tier_falls_back build_arm_linux) eq_refl
             simsimd_cap_any_k simsimd_cap_any_k cleared Hsve Hneon).
Defined.

(** C6, as stated, fails in a build that compiles no NEON tier: with the SVE
    and NEON bits both in [supported & allowed], js for f16 resolves to the
    serial kernel, not to the NEON one. *)
Lemma js_f16_without_neon_tier :
  Z.land (Z.land (Z.lor simsimd_cap_sve_k
                    (Z.lor simsimd_cap_neon_k simsimd_cap_serial_k))
                 simsimd_cap_any_k) simsimd_cap_sve_k <> 0 /\
  Z.land (Z.land (Z.lor simsimd_cap_sve_k
                    (Z.lor simsimd_cap_neon_k simsimd_cap_serial_k))
                 simsimd_cap_any_k) simsimd_cap_neon_k <> 0 /\
  simsimd_find_metric_punned build_x86 simsimd_metric_js_k
    simsimd_datatype_f16_k
    (Z.lor simsimd_cap_sve_k (Z.lor simsimd_cap_neon_k simsimd_cap_serial_k))
    simsimd_cap_any_k cleared =
    {| metric_output := Some simsimd_js_f16_serial;
       capability_output := simsimd_cap_serial_k |} /\
  simsimd_find_metric_punned build_x86 simsimd_metric_js_k
    simsimd_datatype_f16_k
    (Z.lor simsimd_cap_sve_k (Z.lor simsimd_cap_neon_k simsimd_cap_serial_k))
    simsimd_cap_any_k cleared <>
    {| metric_output := Some simsimd_js_f16_neon;
       capability_output := simsimd_cap_neon_k |}.
Proof.
  split; [vm_compute; discriminate|]. split; [vm_compute; discriminate|].
  split; [reflexivity | vm_compute; discriminate].
Qed.

(** ** Every bit of the probe's result *)

(** C7, as amended: the probe always returns a mask with the serial bit set
    and nothing outside the serial and advanced-tier bits, and each advanced
    bit is set exactly according to what is probed: in an x86 build Haswell
    for AVX2, F16C and FMA, Skylake for AVX512F, Ice Lake for its five
    feature bits, Sapphire Rapids for AVX512FP16; in an Arm build NEON always
    and SVE, SVE2 under Linux for the [HWCAP_SVE], [HWCAP2_SVE2] bits of the
    auxiliary vector.  Where no feature query is compiled in, it returns
    exactly the serial bit in a build for neither x86 nor Arm, and NEON with
    serial in an Arm build that is not for Linux. *)
Theorem capabilities_has_serial T h :
  let caps := simsimd_capabilities T h in
  let x86 := SIMSIMD_TARGET_X86 T in
  let arm := negb (SIMSIMD_TARGET_X86 T) && SIMSIMD_TARGET_ARM T in
  let c1 := ecx (cpuid_1 h) in
  let b7 := ebx (cpuid_7 h) in
  let d7 := edx (cpuid_7 h) in
  Z.land caps simsimd_cap_serial_k = simsimd_cap_serial_k /\
  Z.land caps (Z.lor simsimd_cap_serial_k advanced_tiers) = caps /\
  Z.land caps simsimd_cap_haswell_k =
    (if x86 && (Z.testbit b7 5 && Z.testbit c1 29 && Z.testbit c1 12)
     then simsimd_cap_haswell_k else 0) /\
  Z.land caps simsimd_cap_skylake_k =
    (if x86 && Z.testbit b7 16 then simsimd_cap_skylake_k else 0) /\
  Z.land caps simsimd_cap_ice_k =
    (if x86 && (Z.testbit c1 11 && Z.testbit b7 21 && Z.testbit c1 12
                && Z.testbit c1 6 && Z.testbit c1 14)
     then simsimd_cap_ice_k else 0) /\
  Z.land caps simsimd_cap_sapphire_k =
    (if x86 && Z.testbit d7 23 then simsimd_cap_sapphire_k else 0) /\
  Z.land caps simsimd_cap_neon_k =
    (if arm then simsimd_cap_neon_k else 0) /\
  Z.land caps simsimd_cap_sve_k =
    (if arm && (__linux__ T
                && negb (Z.land (getauxval_AT_HWCAP h) (HWCAP_SVE T) =? 0))
     then simsimd_cap_sve_k else 0) /\
  Z.land caps simsimd_cap_sve2_k =
    (if arm && (__linux__ T
                && negb (Z.land (getauxval_AT_HWCAP2 h) (HWCAP2_SVE2 T) =? 0))
     then simsimd_cap_sve2_k else 0) /\
  (query_compiled T = false ->
   caps = if SIMSIMD_TARGET_ARM T
          then Z.lor simsimd_cap_neon_k simsimd_cap_serial_k
          else simsimd_cap_serial_k).
Proof.
  cbv zeta. unfold query_compiled, simsimd_capabilities.
  destruct (SIMSIMD_TARGET_X86 T).
  - unfold capabilities_x86. cbv zeta.
    rewrite (ne0_land_bit (ebx (cpuid_7 h)) 0x00000020 5 eq_refl) by discriminate.
    rewrite (ne0_land_bit (ecx (cpuid_1 h)) 0x20000000 29 eq_refl) by discriminate.
    rewrite (ne0_land_bit (ecx (cpuid_1 h)) 0x00001000 12 eq_refl) by discriminate.
    rewrite (ne0_land_bit (ebx (cpuid_7 h)) 0x00010000 16 eq_refl) by discriminate.
    rewrite (ne0_land_bit (ebx (cpuid_7 h)) 0x00200000 21 eq_refl) by discriminate.
    rewrite (ne0_land_bit (edx (cpuid_7 h)) 0x00800000 23 eq_refl) by discriminate.
    rewrite (ne0_land_bit (ecx (cpuid_1 h)) 0x00004000 14 eq_refl) by discriminate.
    rewrite (ne0_land_bit (ecx (cpuid_1 h)) 0x00000040 6 eq_refl) by discriminate.
    rewrite (ne0_land_bit (ecx (cpuid_1 h)) 0x00000800 11 eq_refl) by discriminate.
    feature_bits; repeat (split; [reflexivity|]); intros Hq; discriminate Hq.
  - destruct (SIMSIMD_TARGET_ARM T).
    + unfold capabilities_arm. cbv zeta. unfold ne0.
      destruct (__linux__ T); each_feature;
        repeat (split; [reflexivity|]); intros Hq;
        first [discriminate Hq | reflexivity].
    + repeat (split; [reflexivity|]). intros _. reflexivity.
Qed.

Lemma capabilities_has_serial_witness :
  query_compiled build_portable = false /\
  simsimd_capabilities build_portable plain_host = simsimd_cap_serial_k.
Proof.
  split; [reflexivity|].
  exact (proj2 (proj2 (proj2 (proj2 (proj2 (proj2 (proj2 (proj2 (proj2
           (capabilities_has_serial build_portable plain_host)))))))))
           eq_refl).
Defined.

(** C7, as stated, fails in an Arm build that is not for Linux: no feature
    query is compiled in, and the probe returns NEON with serial, not the
    serial bit alone. *)
Lemma arm_without_linux_reports_neon :
  query_compiled build_arm_other = false /\
  simsimd_capabilities build_arm_other plain_host
    = Z.lor simsimd_cap_neon_k simsimd_cap_serial_k /\
  simsimd_capabilities build_arm_other plain_host <> simsimd_cap_serial_k.
Proof.
  split; [reflexivity|]. split; [reflexivity | vm_compute; discriminate].
Qed.

(** ** The dot kind of 8-bit integers *)

Lemma i8_dot_registered T :
  In {| entry_datatype := simsimd_datatype_i8_k;
        entry_tier := simsimd_cap_serial_k;
        entry_kind := simsimd_metric_dot_k;
        entry_point := simsimd_cos_i8_serial |} (catalog T) /\
  (SIMSIMD_TARGET_NEON T = true ->
   In {| entry_datatype := simsimd_datatype_i8_k;
         entry_tier := simsimd_cap_neon_k;
         entry_kind := simsimd_metric_dot_k;
         entry_point := simsimd_cos_i8_neon |} (catalog T)) /\
  (SIMSIMD_TARGET_ICE T = true ->
   In {| entry_datatype := simsimd_datatype_i8_k;
         entry_tier := simsimd_cap_ice_k;
         entry_kind := simsimd_metric_dot_k;
         entry_point := simsimd_cos_i8_ice |} (catalog T)) /\
  (SIMSIMD_TARGET_HASWELL T = true ->
   In {| entry_datatype := simsimd_datatype_i8_k;
         entry_tier := simsimd_cap_haswell_k;
         entry_kind := simsimd_metric_dot_k;
         entry_point := simsimd_cos_i8_haswell |} (catalog T)).
Proof.
  each_build T;
    (split; [|split; [|split]]); intros;
    try match goal with
        | H : _ = true |- _ => discriminate H
        end;
    vm_compute; repeat first [left; reflexivity | right].
Qed.

(** C9: for datatype i8 the dot kind resolves to the same entry point, and
    the same tier, as the cos kind under the same masks.  Every compiled
    tier of i8 (serial, NEON, Ice Lake, Haswell) registers its cosine kernel
    under the dot kind, so an i8 dot request resolves whenever the serial
    bit is viable, and what it yields is always one of the four i8 cosine
    kernels, never a distinct inner-product kernel. *)
Theorem i8_dot_is_cosine T supported allowed out :
  simsimd_find_metric_punned T simsimd_metric_dot_k simsimd_datatype_i8_k
    supported allowed out =
  simsimd_find_metric_punned T simsimd_metric_cos_k simsimd_datatype_i8_k
    supported allowed out
  /\ (forall f,
       metric_output
         (simsimd_find_metric_punned T simsimd_metric_dot_k
            simsimd_datatype_i8_k supported allowed out) = Some f ->
       In f [simsimd_cos_i8_neon; simsimd_cos_i8_ice;
             simsimd_cos_i8_haswell; simsimd_cos_i8_serial])
  /\ (In {| entry_datatype := simsimd_datatype_i8_k;
            entry_tier := simsimd_cap_serial_k;
            entry_kind := simsimd_metric_dot_k;
            entry_point := simsimd_cos_i8_serial |} (catalog T) /\
      (SIMSIMD_TARGET_NEON T = true ->
       In {| entry_datatype := simsimd_datatype_i8_k;
             entry_tier := simsimd_cap_neon_k;
             entry_kind := simsimd_metric_dot_k;
             entry_point := simsimd_cos_i8_neon |} (catalog T)) /\
      (SIMSIMD_TARGET_ICE T = true ->
       In {| entry_datatype := simsimd_datatype_i8_k;
             entry_tier := simsimd_cap_ice_k;
             entry_kind := simsimd_metric_dot_k;
             entry_point := simsimd_cos_i8_ice |} (catalog T)) /\
      (SIMSIMD_TARGET_HASWELL T = true ->
       In {| entry_datatype := simsimd_datatype_i8_k;
             entry_tier := simsimd_cap_haswell_k;
             entry_kind := simsimd_metric_dot_k;
             entry_point := simsimd_cos_i8_haswell |} (catalog T)))
  /\ (Z.land (Z.land supported allowed) simsimd_cap_serial_k <> 0 ->
      exists f,
        metric_output
          (simsimd_find_metric_punned T simsimd_metric_dot_k
             simsimd_datatype_i8_k supported allowed out) = Some f /\
        kernel_metric f = cos /\ kernel_type f = i8).
Proof.
  destruct (i8_dot_resolves_like_cos T supported allowed out) as [Heq Hcos].
  split; [exact Heq|]. split; [exact Hcos|].
  split; [exact (i8_dot_registered T)|].
  intros Hs.
  assert (Hreg : tier_registers T simsimd_cap_serial_k simsimd_metric_dot_k
                   simsimd_datatype_i8_k)
    by (exists simsimd_cos_i8_serial; exact (proj1 (i8_dot_registered T))).
  pose proof (find_metric_some_fires T simsimd_metric_dot_k
                simsimd_datatype_i8_k supported allowed out
                (tier_registers_fires _ _ _ _ _ Hreg Hs)) as Hnn.
  destruct (metric_output _) as [f|] eqn:Hf; [|now elim Hnn].
  exists f. split; [reflexivity|].
  specialize (Hcos f eq_refl). cbn [In] in Hcos.
  destruct Hcos as [<-|[<-|[<-|[<-|[]]]]]; split; reflexivity.
Qed.

Lemma i8_dot_is_cosine_witness :
  Z.land (Z.land simsimd_cap_any_k simsimd_cap_any_k) simsimd_cap_serial_k <> 0 /\
  exists f,
    metric_output
      (simsimd_find_metric_punned build_x86 simsimd_metric_dot_k
         simsimd_datatype_i8_k simsimd_cap_any_k simsimd_cap_any_k cleared)
      = Some f /\
    kernel_metric f = cos /\ kernel_type f = i8.
Proof.
  assert (Hs : Z.land (Z.land simsimd_cap_any_k simsimd_cap_any_k)
                      simsimd_cap_serial_k <> 0) by (vm_compute; discriminate).
  split; [exact Hs|].
  exact (proj2 (proj2 (proj2
           (i8_dot_is_cosine build_x86 simsimd_cap_any_k simsimd_cap_any_k
              cleared))) Hs).
Defined.
